(** * GitLab trigger evaluation and context assembly: a shallow embedding

    The development follows the TypeScript sources

    - [src/gitlab/validation/trigger.ts]   (class [GitLabTriggerValidator]),
    - [src/gitlab/data/formatter.ts]       ([fetchModifiedFiles], [isRelevantFile]),
    - the prompt builder                   ([buildDisallowedToolsString]),

    and states the properties of the specification over these definitions.

    Modelling conventions.  A JavaScript string is a Rocq [string]; the
    letters that [toLowerCase] and the [i] flag of a regular expression
    fold are the ASCII letters [A]-[Z], every other character is left as
    it is, which is what the runtime does on ASCII text; properties of
    the phrase test that speak of letter case are stated for ASCII text.
    A [number] is an integer [Z].  An optional field [f?: T] is an
    [option T].  A function that may throw returns a [Completion]. *)

From Stdlib Require Import Bool List Arith ZArith Lia Ascii String.
Import ListNotations.
Open Scope string_scope.
Open Scope bool_scope.

Set Warnings "-register-all".

(** ** JavaScript strings *)

Module JSString.

Definition code (c : ascii) : nat := nat_of_ascii c.

Definition isUpper (c : ascii) : bool := (65 <=? code c)%nat && (code c <=? 90)%nat.
Definition isLower (c : ascii) : bool := (97 <=? code c)%nat && (code c <=? 122)%nat.

Definition lowerChar (c : ascii) : ascii :=
  if isUpper c then ascii_of_nat (code c + 32) else c.
Definition upperChar (c : ascii) : ascii :=
  if isLower c then ascii_of_nat (code c - 32) else c.

Fixpoint map (f : ascii -> ascii) (s : string) : string :=
  match s with
  | EmptyString => EmptyString
  | String c s' => String (f c) (map f s')
  end.

(** [String.prototype.toLowerCase] and [toUpperCase] on ASCII text, where
    they fold the letters [A]-[Z] and [a]-[z] and nothing else.  Outside
    ASCII the conversion of the runtime follows Unicode and its context
    rules (a word-final sigma, for one) and is not modelled: a property
    that speaks of letter case in its own terms is stated for ASCII text. *)
Definition toLowerCase (s : string) : string := map lowerChar s.
Definition toUpperCase (s : string) : string := map upperChar s.

(** [s.startsWith(p)]. *)
Fixpoint startsWith (s p : string) {struct p} : bool :=
  match p, s with
  | EmptyString, _ => true
  | String a p', String b s' => Ascii.eqb a b && startsWith s' p'
  | String _ _, EmptyString => false
  end.

(** [s.includes(p)]: [p] occurs in [s] at some position. *)
Fixpoint includes (s p : string) : bool :=
  startsWith s p ||
  match s with
  | EmptyString => false
  | String _ s' => includes s' p
  end.

(** [s.endsWith(p)]: some tail of [s] is [p]. *)
Fixpoint endsWith (s p : string) : bool :=
  String.eqb s p ||
  match s with
  | EmptyString => false
  | String _ s' => endsWith s' p
  end.

(** [s.replace(c, '')] for a one-character search string [c]: the first
    occurrence of [c] is removed, later ones stay. *)
Fixpoint removeFirst (c : ascii) (s : string) : string :=
  match s with
  | EmptyString => EmptyString
  | String a s' => if Ascii.eqb a c then s' else String a (removeFirst c s')
  end.

(** [xs.join(sep)]. *)
Fixpoint join (sep : string) (xs : list string) : string :=
  match xs with
  | [] => ""
  | [x] => x
  | x :: rest => x ++ sep ++ join sep rest
  end.

(** JavaScript truthiness of a string: only [''] is falsy. *)
Definition truthy (s : string) : bool := negb (String.eqb s "").

(** Two characters that are the same letter up to ASCII case. *)
Definition sameLetter (a b : ascii) : Prop :=
  a = b
  \/ (isUpper a = true /\ code b = code a + 32)
  \/ (isUpper b = true /\ code a = code b + 32).

(** Two strings that differ in letter case only. *)
Inductive eqIgnoreCase : string -> string -> Prop :=
| eic_nil : eqIgnoreCase "" ""
| eic_cons a b s t :
    sameLetter a b -> eqIgnoreCase s t ->
    eqIgnoreCase (String a s) (String b t).

(** [lit] occurs in [s] in some letter case. *)
Definition containsIgnoreCase (s lit : string) : Prop :=
  exists pre occ post, s = pre ++ occ ++ post /\ eqIgnoreCase occ lit.
Definition hasSuffixIgnoreCase (s lit : string) : Prop :=
  exists pre occ, s = pre ++ occ /\ eqIgnoreCase occ lit.
Definition hasPrefixIgnoreCase (s lit : string) : Prop :=
  exists occ post, s = occ ++ post /\ eqIgnoreCase occ lit.

End JSString.

(** ** Regular expressions

    Every regular expression literal of the sources is a finite union of
    literal words between optional [^] and [$] assertions, possibly with
    the [i] flag.  [Pattern] is the body of such a literal and [words]
    its (finite) language. *)

Module RegExp.

Inductive Pattern : Type :=
| Lit (s : string)
| Seq (p q : Pattern)
| Alt (p q : Pattern).

Fixpoint words (p : Pattern) : list string :=
  match p with
  | Lit s => [s]
  | Seq p q => flat_map (fun u => List.map (fun v => u ++ v) (words q)) (words p)
  | Alt p q => words p ++ words q
  end.

(** [(a|b|c)] *)
Fixpoint oneOf (first : string) (rest : list string) : Pattern :=
  match rest with
  | [] => Lit first
  | next :: rest' => Alt (Lit first) (oneOf next rest')
  end.

Record t : Type := mk {
  assertStart : bool;      (* the literal starts with [^] *)
  body : Pattern;
  assertEnd : bool;        (* the literal ends with [$] (no [m] flag) *)
  ignoreCase : bool        (* the [i] flag *)
}.

(** Canonicalisation of the [i] flag (non-unicode mode): both sides are
    compared after [toUpperCase]. *)
Definition canonicalize (re : t) (s : string) : string :=
  if ignoreCase re then JSString.toUpperCase s else s.

Definition matchWord (re : t) (input word : string) : bool :=
  match assertStart re, assertEnd re with
  | true, true => String.eqb input word
  | true, false => JSString.startsWith input word
  | false, true => JSString.endsWith input word
  | false, false => JSString.includes input word
  end.

(** [re.test(s)] *)
Definition test (re : t) (s : string) : bool :=
  existsb (fun w => matchWord re (canonicalize re s) (canonicalize re w))
          (words (body re)).

End RegExp.

(** ** Completions: normal return or a thrown exception *)

Inductive JSError : Type := SyntaxError | TypeError | OtherError.

Inductive Completion (A : Type) : Type :=
| Return (a : A)
| Throw (e : JSError).
Arguments Return {A} a.
Arguments Throw {A} e.

Definition bind {A B : Type} (c : Completion A) (k : A -> Completion B) : Completion B :=
  match c with
  | Return a => k a
  | Throw e => Throw e
  end.

(** [try { body } catch (error) { handler }] *)
Definition tryCatch {A : Type} (body : Completion A) (handler : JSError -> Completion A)
  : Completion A :=
  match body with
  | Return a => Return a
  | Throw e => handler e
  end.

Notation "x <- c ;; k" := (bind c (fun x => k))
  (at level 61, c at next level, right associativity).

(** ** Data model ([src/gitlab/types.d.ts])

    Only the fields the modelled functions read or write are kept. *)

Module GitLabUser.
Record t : Type := mk {
  id : Z;
  username : string;
  name : option string     (* read as [user.name || ''] *)
}.
End GitLabUser.

Module GitLabProject.
Record t : Type := mk {
  id : Z;
  path_with_namespace : string
}.
End GitLabProject.

Module GitLabLabel.
Record t : Type := mk {
  id : Z;
  title : string;
  color : string
}.
End GitLabLabel.

Module GitLabNote.
Record t : Type := mk {
  id : Z;
  body : string;
  author : GitLabUser.t;
  created_at : string;
  updated_at : string;
  system : bool;
  noteable_type : string;
  noteable_id : Z
}.
End GitLabNote.

Module GitLabIssue.
Record t : Type := mk {
  id : Z;
  iid : Z;
  title : string;
  description : option string;   (* read as [issue.description || ''] *)
  state : string
}.
End GitLabIssue.

Module GitLabMergeRequest.
Record t : Type := mk {
  id : Z;
  iid : Z;
  title : string;
  description : option string;
  state : string;
  source_branch : string
}.
End GitLabMergeRequest.

(** [object_attributes] of a [GitLabNoteEvent]. *)
Module NoteAttributes.
Record t : Type := mk {
  id : Z;
  note : string;
  noteable_type : string;
  created_at : string;
  updated_at : string;
  noteable_id : Z;
  system : bool
}.
End NoteAttributes.

Module GitLabDiff.
Record t : Type := mk {
  old_path : string;
  new_path : string;
  new_file : bool;
  renamed_file : bool;
  deleted_file : bool;
  diff : string
}.
End GitLabDiff.

Module GitLabFile.
Record t : Type := mk {
  file_name : string;
  file_path : string;
  ref : string;
  content : option string
}.
End GitLabFile.

(** The event union, tagged by [object_kind]; each kind carries the
    kind-specific members of its TypeScript type. *)
Inductive EventObject : Type :=
| GitLabNoteEvent (object_attributes : NoteAttributes.t)
                  (issue : option GitLabIssue.t)
                  (merge_request : option GitLabMergeRequest.t)
| GitLabIssueEvent (object_attributes : GitLabIssue.t)
| GitLabMergeRequestEvent (object_attributes : GitLabMergeRequest.t)
| GitLabPushEvent
| GitLabTagPushEvent.

Module GitLabWebhookEvent.
Record t : Type := mk {
  object : EventObject;
  user : GitLabUser.t;
  project : GitLabProject.t;
  assignees : option (list GitLabUser.t);
  labels : option (list GitLabLabel.t)
}.

Definition object_kind (event : t) : string :=
  match object event with
  | GitLabNoteEvent _ _ _ => "note"
  | GitLabIssueEvent _ => "issue"
  | GitLabMergeRequestEvent _ => "merge_request"
  | GitLabPushEvent => "push"
  | GitLabTagPushEvent => "tag_push"
  end.
End GitLabWebhookEvent.

Module GitLabActionConfig.
Record t : Type := mk {
  triggerPhrase : string;
  assigneeTrigger : option string;
  labelTrigger : option string;
  allowedTools : option (list string);
  disallowedTools : option (list string)
}.
End GitLabActionConfig.

Inductive TriggerType : Type := comment | assignee | label | direct.
Inductive ResourceType : Type := issue | merge_request.

Module TriggerResult.
Record t : Type := mk {
  shouldTrigger : bool;
  triggerType : option TriggerType;
  resourceType : option ResourceType;
  resourceId : option Z;
  projectId : option Z;
  triggeredBy : option GitLabUser.t;
  triggerComment : option GitLabNote.t
}.

(** The assignments [result.shouldTrigger = true; result.triggerType = ty;
    result.resourceType = rt; result.resourceId = rid] of the issue and
    merge-request validators. *)
Definition fire (result : t) (ty : TriggerType) (rt : ResourceType) (rid : Z) : t :=
  {| shouldTrigger := true;
     triggerType := Some ty;
     resourceType := Some rt;
     resourceId := Some rid;
     projectId := projectId result;
     triggeredBy := triggeredBy result;
     triggerComment := triggerComment result |}.
End TriggerResult.

(** An optional string used as a condition: [undefined] and [''] are falsy. *)
Definition truthyString (o : option string) : option string :=
  match o with
  | Some s => if JSString.truthy s then Some s else None
  | None => None
  end.

(** [o || ''] *)
Definition orEmpty (o : option string) : string :=
  match o with
  | Some s => s
  | None => ""
  end.

Definition isSome {A : Type} (o : option A) : bool :=
  match o with
  | Some _ => true
  | None => false
  end.

(** ** The trigger validator ([src/gitlab/validation/trigger.ts]) *)

Module GitLabTriggerValidator.

Import RegExp.

Definition botPatterns : list RegExp.t :=
  [ RegExp.mk false (Lit "bot") true true;          (* /bot$/i *)
    RegExp.mk false (Lit "[bot]") true true;        (* /\[bot\]$/i *)
    RegExp.mk true (Lit "gitlab-") false true;      (* /^gitlab-/i *)
    RegExp.mk true (Lit "github-") false true;      (* /^github-/i *)
    RegExp.mk false (Lit "service") true true;      (* /service$/i *)
    RegExp.mk false (Lit "automation") true true    (* /automation$/i *)
  ].

Definition isBotUser (user : GitLabUser.t) : bool :=
  existsb (fun pattern => RegExp.test pattern (GitLabUser.username user)) botPatterns
  || existsb (fun pattern => RegExp.test pattern (orEmpty (GitLabUser.name user))) botPatterns.

Section WithConfig.

Variable config : GitLabActionConfig.t.

Definition containsTriggerPhrase (text : string) : bool :=
  if negb (JSString.truthy text) then false
  else
    let normalizedText := JSString.toLowerCase text in
    let normalizedPhrase := JSString.toLowerCase (GitLabActionConfig.triggerPhrase config) in
    JSString.includes normalizedText normalizedPhrase
    || JSString.includes normalizedText ("@" ++ JSString.removeFirst "@" normalizedPhrase).

Definition validateNoteEvent (event : GitLabWebhookEvent.t)
    (note : NoteAttributes.t)
    (event_issue : option GitLabIssue.t)
    (event_merge_request : option GitLabMergeRequest.t)
    (result : TriggerResult.t) : TriggerResult.t :=
  if NoteAttributes.system note then result
  else if containsTriggerPhrase (NoteAttributes.note note) then
    let triggerComment :=
      {| GitLabNote.id := NoteAttributes.id note;
         GitLabNote.body := NoteAttributes.note note;
         GitLabNote.author := GitLabWebhookEvent.user event;
         GitLabNote.created_at := NoteAttributes.created_at note;
         GitLabNote.updated_at := NoteAttributes.updated_at note;
         GitLabNote.system := NoteAttributes.system note;
         GitLabNote.noteable_type := NoteAttributes.noteable_type note;
         GitLabNote.noteable_id := NoteAttributes.noteable_id note |} in
    let result :=
      {| TriggerResult.shouldTrigger := true;
         TriggerResult.triggerType := Some comment;
         TriggerResult.resourceType := TriggerResult.resourceType result;
         TriggerResult.resourceId := TriggerResult.resourceId result;
         TriggerResult.projectId := TriggerResult.projectId result;
         TriggerResult.triggeredBy := TriggerResult.triggeredBy result;
         TriggerResult.triggerComment := Some triggerComment |} in
    match String.eqb (NoteAttributes.noteable_type note) "Issue", event_issue with
    | true, Some i =>
        {| TriggerResult.shouldTrigger := TriggerResult.shouldTrigger result;
           TriggerResult.triggerType := TriggerResult.triggerType result;
           TriggerResult.resourceType := Some issue;
           TriggerResult.resourceId := Some (GitLabIssue.iid i);
           TriggerResult.projectId := TriggerResult.projectId result;
           TriggerResult.triggeredBy := TriggerResult.triggeredBy result;
           TriggerResult.triggerComment := TriggerResult.triggerComment result |}
    | _, _ =>
        match String.eqb (NoteAttributes.noteable_type note) "MergeRequest",
              event_merge_request with
        | true, Some mr =>
            {| TriggerResult.shouldTrigger := TriggerResult.shouldTrigger result;
               TriggerResult.triggerType := TriggerResult.triggerType result;
               TriggerResult.resourceType := Some merge_request;
               TriggerResult.resourceId := Some (GitLabMergeRequest.iid mr);
               TriggerResult.projectId := TriggerResult.projectId result;
               TriggerResult.triggeredBy := TriggerResult.triggeredBy result;
               TriggerResult.triggerComment := TriggerResult.triggerComment result |}
        | _, _ => result
        end
    end
  else result.

(** [config.assigneeTrigger && event.assignees] followed by
    [event.assignees.some(a => a.username === config.assigneeTrigger)]. *)
Definition hasAssigneeTrigger (event : GitLabWebhookEvent.t) : bool :=
  match truthyString (GitLabActionConfig.assigneeTrigger config),
        GitLabWebhookEvent.assignees event with
  | Some wanted, Some assignees =>
      existsb (fun a => String.eqb (GitLabUser.username a) wanted) assignees
  | _, _ => false
  end.

(** [config.labelTrigger && event.labels] followed by
    [event.labels.some(l => l.title === config.labelTrigger)]. *)
Definition hasLabelTrigger (event : GitLabWebhookEvent.t) : bool :=
  match truthyString (GitLabActionConfig.labelTrigger config),
        GitLabWebhookEvent.labels event with
  | Some wanted, Some labels =>
      existsb (fun l => String.eqb (GitLabLabel.title l) wanted) labels
  | _, _ => false
  end.

Definition validateIssueEvent (event : GitLabWebhookEvent.t)
    (issue_ : GitLabIssue.t) (result : TriggerResult.t) : TriggerResult.t :=
  if hasAssigneeTrigger event then
    TriggerResult.fire result assignee issue (GitLabIssue.iid issue_)
  else if hasLabelTrigger event then
    TriggerResult.fire result label issue (GitLabIssue.iid issue_)
  else if String.eqb (GitLabIssue.state issue_) "opened" then
    let hasPhrase :=
      containsTriggerPhrase (GitLabIssue.title issue_)
      || containsTriggerPhrase (orEmpty (GitLabIssue.description issue_)) in
    if hasPhrase then
      TriggerResult.fire result comment issue (GitLabIssue.iid issue_)
    else result
  else result.

Definition validateMergeRequestEvent (event : GitLabWebhookEvent.t)
    (mr : GitLabMergeRequest.t) (result : TriggerResult.t) : TriggerResult.t :=
  if hasAssigneeTrigger event then
    TriggerResult.fire result assignee merge_request (GitLabMergeRequest.iid mr)
  else if hasLabelTrigger event then
    TriggerResult.fire result label merge_request (GitLabMergeRequest.iid mr)
  else if String.eqb (GitLabMergeRequest.state mr) "opened" then
    let hasPhrase :=
      containsTriggerPhrase (GitLabMergeRequest.title mr)
      || containsTriggerPhrase (orEmpty (GitLabMergeRequest.description mr)) in
    if hasPhrase then
      TriggerResult.fire result comment merge_request (GitLabMergeRequest.iid mr)
    else result
  else result.

Definition validateTrigger (event : GitLabWebhookEvent.t) : TriggerResult.t :=
  let result :=
    {| TriggerResult.shouldTrigger := false;
       TriggerResult.triggerType := None;
       TriggerResult.resourceType := None;
       TriggerResult.resourceId := None;
       TriggerResult.projectId := Some (GitLabProject.id (GitLabWebhookEvent.project event));
       TriggerResult.triggeredBy := Some (GitLabWebhookEvent.user event);
       TriggerResult.triggerComment := None |} in
  if isBotUser (GitLabWebhookEvent.user event) then result
  else
    match GitLabWebhookEvent.object event with
    | GitLabNoteEvent note i mr => validateNoteEvent event note i mr result
    | GitLabIssueEvent i => validateIssueEvent event i result
    | GitLabMergeRequestEvent mr => validateMergeRequestEvent event mr result
    | GitLabPushEvent | GitLabTagPushEvent => result
    end.

End WithConfig.

End GitLabTriggerValidator.

(** ** The pipeline trigger ([validatePipelineTrigger])

    [JSON.parse] belongs to the JavaScript runtime; it is a parameter of
    the model.  It either returns a JSON value or throws [SyntaxError]. *)

Inductive JSON : Type :=
| JNull
| JBool (b : bool)
| JNumber (n : Z)
| JString (s : string)
| JArray (items : list JSON)
| JObject (members : list (string * JSON)).

(** What a property read yields: a JSON value or [undefined]. *)
Inductive JSValue : Type :=
| undefined
| value (j : JSON).

Module JS.

(** Members in source order; [JSON.parse] lets a later duplicate key
    overwrite an earlier one. *)
Definition lookup (key : string) (members : list (string * JSON)) : JSValue :=
  fold_left (fun found m => if String.eqb (fst m) key then value (snd m) else found)
            members undefined.

(** [data.key] for a key that no built-in prototype defines: reading a
    property of [null] throws [TypeError], a primitive or an array has no
    such property. *)
Definition getMember (data : JSON) (key : string) : Completion JSValue :=
  match data with
  | JNull => Throw TypeError
  | JObject members => Return (lookup key members)
  | JBool _ | JNumber _ | JString _ | JArray _ => Return undefined
  end.

Definition truthy (v : JSValue) : bool :=
  match v with
  | undefined => false
  | value JNull => false
  | value (JBool b) => b
  | value (JNumber n) => negb (Z.eqb n 0)
  | value (JString s) => JSString.truthy s
  | value (JArray _) | value (JObject _) => true
  end.

(** [a || b] *)
Definition or (a b : JSValue) : JSValue := if truthy a then a else b.

End JS.

(** The object [validatePipelineTrigger] returns: the fields of a
    [TriggerResult] filled with whatever the parsed blob holds (the
    TypeScript types are erased at run time). *)
Module RawTriggerResult.
Record t : Type := mk {
  shouldTrigger : bool;
  triggerType : JSValue;
  resourceType : JSValue;
  resourceId : JSValue;
  projectId : JSValue;
  triggeredBy : JSValue
}.

Definition allNull : t :=
  {| shouldTrigger := false;
     triggerType := value JNull;
     resourceType := value JNull;
     resourceId := value JNull;
     projectId := value JNull;
     triggeredBy := value JNull |}.
End RawTriggerResult.

Module Pipeline.
Section WithRuntime.

Variable JSON_parse : string -> Completion JSON.

Definition validatePipelineTrigger (triggerData : string) : Completion RawTriggerResult.t :=
  tryCatch
    (data <- JSON_parse triggerData ;;
     triggerType <- JS.getMember data "triggerType" ;;
     resourceType <- JS.getMember data "resourceType" ;;
     resourceId <- JS.getMember data "resourceId" ;;
     projectId <- JS.getMember data "projectId" ;;
     triggeredBy <- JS.getMember data "triggeredBy" ;;
     Return {| RawTriggerResult.shouldTrigger := true;
               RawTriggerResult.triggerType := JS.or triggerType (value (JString "direct"));
               RawTriggerResult.resourceType := resourceType;
               RawTriggerResult.resourceId := resourceId;
               RawTriggerResult.projectId := projectId;
               RawTriggerResult.triggeredBy := JS.or triggeredBy (value JNull) |})
    (fun error => Return RawTriggerResult.allNull).

End WithRuntime.
End Pipeline.

(** ** The merge-request file fetch ([src/gitlab/data/formatter.ts]) *)

Module GitLabDataFetcher.

Import RegExp.

Definition excludePatterns : list RegExp.t :=
  [ (* /\.(png|jpg|jpeg|gif|ico|svg|pdf|zip|tar|gz|exe|bin|dll)$/i *)
    RegExp.mk false
      (Seq (Lit ".")
           (oneOf "png" ["jpg"; "jpeg"; "gif"; "ico"; "svg"; "pdf"; "zip";
                         "tar"; "gz"; "exe"; "bin"; "dll"]))
      true true;
    RegExp.mk false (Lit "package-lock.json") true false;   (* /package-lock\.json$/ *)
    RegExp.mk false (Lit "yarn.lock") true false;           (* /yarn\.lock$/ *)
    RegExp.mk false (Lit "pnpm-lock.yaml") true false;      (* /pnpm-lock\.yaml$/ *)
    RegExp.mk false (Lit "Gemfile.lock") true false;        (* /Gemfile\.lock$/ *)
    RegExp.mk false (Lit "composer.lock") true false;       (* /composer\.lock$/ *)
    RegExp.mk false (Seq (Lit ".min.") (oneOf "js" ["css"])) true false;
                                                            (* /\.min\.(js|css)$/ *)
    RegExp.mk false (Lit "node_modules/") false false;      (* /node_modules\// *)
    RegExp.mk false (Lit ".git/") false false;              (* /\.git\// *)
    RegExp.mk false (Lit "build/") false false;             (* /build\// *)
    RegExp.mk false (Lit "dist/") false false               (* /dist\// *)
  ].

Definition isRelevantFile (filePath : string) : bool :=
  negb (existsb (fun pattern => RegExp.test pattern filePath) excludePatterns).

Definition maxFiles : nat := 20.

(** [diffs.filter(d => !d.deleted_file && isRelevantFile(d.new_path)).slice(0, maxFiles)] *)
Definition relevantDiffs (diffs : list GitLabDiff.t) : list GitLabDiff.t :=
  firstn maxFiles
    (filter (fun diff => negb (GitLabDiff.deleted_file diff)
                         && isRelevantFile (GitLabDiff.new_path diff))
            diffs).

Section WithClient.

(** [client.getFile(projectId, path, ref)], which throws on a failed
    request, and the base64 decoding of [Buffer]. *)
Variable getFile : Z -> string -> string -> Completion GitLabFile.t.
Variable decodeBase64 : string -> string.

Definition decodeContent (file : GitLabFile.t) : GitLabFile.t :=
  match truthyString (GitLabFile.content file) with
  | Some content =>
      {| GitLabFile.file_name := GitLabFile.file_name file;
         GitLabFile.file_path := GitLabFile.file_path file;
         GitLabFile.ref := GitLabFile.ref file;
         GitLabFile.content := Some (decodeBase64 content) |}
  | None => file
  end.

(** One turn of the [for] loop: a fetched file is pushed, a failed fetch
    is logged and skipped. *)
Definition fetchOne (projectId : Z) (branch : string)
    (files : list GitLabFile.t) (diff : GitLabDiff.t) : list GitLabFile.t :=
  match getFile projectId (GitLabDiff.new_path diff) branch with
  | Return file => files ++ [decodeContent file]
  | Throw _ => files
  end.

Definition fetchModifiedFiles (projectId : Z) (diffs : list GitLabDiff.t)
    (branch : string) : list GitLabFile.t :=
  fold_left (fetchOne projectId branch) (relevantDiffs diffs) [].

End WithClient.

End GitLabDataFetcher.

(** ** Tool lists of the prompt builder *)

Module CreatePrompt.

Definition BASE_ALLOWED_TOOLS : list string :=
  [ "Edit"; "MultiEdit"; "Glob"; "Grep"; "LS"; "Read"; "Write";
    "mcp__gitlab_file_ops__commit_files";
    "mcp__gitlab_file_ops__delete_files";
    "mcp__gitlab_file_ops__update_claude_comment" ].

Definition DISALLOWED_TOOLS : list string := [ "WebSearch"; "WebFetch" ].

(** [xs.includes(x)] on an array of strings. *)
Definition arrayIncludes (xs : list string) (x : string) : bool :=
  existsb (fun y => String.eqb y x) xs.

(** [xs && xs.length > 0] *)
Definition nonEmptyArray (o : option (list string)) : option (list string) :=
  match o with
  | Some (x :: rest) => Some (x :: rest)
  | _ => None
  end.

Definition buildAllowedToolsString (customAllowedTools : option (list string)) : string :=
  let allAllowedTools := JSString.join "," BASE_ALLOWED_TOOLS in
  match nonEmptyArray customAllowedTools with
  | Some custom => allAllowedTools ++ "," ++ JSString.join "," custom
  | None => allAllowedTools
  end.

Definition buildDisallowedToolsString
    (customDisallowedTools allowedTools : option (list string)) : string :=
  let disallowedTools := DISALLOWED_TOOLS in
  let disallowedTools :=
    match nonEmptyArray allowedTools with
    | Some allowed => filter (fun tool => negb (arrayIncludes allowed tool)) disallowedTools
    | None => disallowedTools
    end in
  let allDisallowedTools := JSString.join "," disallowedTools in
  match nonEmptyArray customDisallowedTools with
  | Some custom =>
      if JSString.truthy allDisallowedTools
      then allDisallowedTools ++ "," ++ JSString.join "," custom
      else JSString.join "," custom
  | None => allDisallowedTools
  end.

End CreatePrompt.

(** ** Vocabulary of the specification *)

Module Spec.

Import JSString.

(** A name that matches one of the fixed bot patterns: suffix [bot],
    suffix [[bot]], prefix [gitlab-], prefix [github-], suffix [service],
    suffix [automation], in any letter case. *)
Definition matchesBotPattern (s : string) : Prop :=
  hasSuffixIgnoreCase s "bot"
  \/ hasSuffixIgnoreCase s "[bot]"
  \/ hasPrefixIgnoreCase s "gitlab-"
  \/ hasPrefixIgnoreCase s "github-"
  \/ hasSuffixIgnoreCase s "service"
  \/ hasSuffixIgnoreCase s "automation".

(** The username, or the display name when there is one, matches. *)
Definition isBot (user : GitLabUser.t) : Prop :=
  matchesBotPattern (GitLabUser.username user)
  \/ exists display, GitLabUser.name user = Some display /\ matchesBotPattern display.

(** The configured assignee username is among the assignees of the event.
    An assignee trigger that is unset or [''] is not configured. *)
Definition assigneeMatches (config : GitLabActionConfig.t)
    (event : GitLabWebhookEvent.t) : Prop :=
  exists wanted assignees,
    GitLabActionConfig.assigneeTrigger config = Some wanted /\ wanted <> ""
    /\ GitLabWebhookEvent.assignees event = Some assignees
    /\ In wanted (List.map GitLabUser.username assignees).

(** The configured label title is among the labels of the event. *)
Definition labelMatches (config : GitLabActionConfig.t)
    (event : GitLabWebhookEvent.t) : Prop :=
  exists wanted labels,
    GitLabActionConfig.labelTrigger config = Some wanted /\ wanted <> ""
    /\ GitLabWebhookEvent.labels event = Some labels
    /\ In wanted (List.map GitLabLabel.title labels).

(** The mention form of a phrase: [@] followed by the phrase without its
    first [@]. *)
Definition mentionForm (phrase : string) : string :=
  "@" ++ removeFirst "@" phrase.

(** What the phrase test accepts: a non-empty text that contains, in any
    letter case, the phrase as configured or its mention form. *)
Definition phraseInText (phrase text : string) : Prop :=
  text <> ""
  /\ (containsIgnoreCase text phrase \/ containsIgnoreCase text (mentionForm phrase)).

(** The phrase with and without a leading [@]. *)
Definition withoutLeadingAt (phrase : string) : string :=
  match phrase with
  | String "@" rest => rest
  | _ => phrase
  end.
Definition withLeadingAt (phrase : string) : string :=
  "@" ++ withoutLeadingAt phrase.

(** The text contains the phrase in any letter case, the occurrence
    carrying a leading [@] or not. *)
Definition namesPhrase (phrase text : string) : Prop :=
  containsIgnoreCase text (withLeadingAt phrase)
  \/ containsIgnoreCase text (withoutLeadingAt phrase).

(** The deny-list in the words of the specification: the base deny-list
    without the tools the caller allowed, followed by the caller's
    disallowed tools. *)
Definition orNone (o : option (list string)) : list string :=
  match o with
  | Some xs => xs
  | None => []
  end.

Definition resolvedDenyList
    (customDisallowedTools allowedTools : option (list string)) : list string :=
  filter (fun tool => negb (CreatePrompt.arrayIncludes (orNone allowedTools) tool))
         CreatePrompt.DISALLOWED_TOOLS
  ++ orNone customDisallowedTools.

(** The three conditions of the issue and merge-request validators in
    their order; the first that holds decides the trigger type. *)
Definition firstMatch (byAssignee byLabel opened byPhrase : bool) : option TriggerType :=
  if byAssignee then Some assignee
  else if byLabel then Some label
  else if opened && byPhrase then Some comment
  else None.

(** The exclusion set of the file fetch: extensions matched in any letter
    case, file-name endings and path segments matched exactly. *)
Definition binaryExtensions : list string :=
  [ ".png"; ".jpg"; ".jpeg"; ".gif"; ".ico"; ".svg"; ".pdf"; ".zip";
    ".tar"; ".gz"; ".exe"; ".bin"; ".dll" ].

Definition excludedEndings : list string :=
  [ "package-lock.json"; "yarn.lock"; "pnpm-lock.yaml"; "Gemfile.lock";
    "composer.lock"; ".min.js"; ".min.css" ].

Definition excludedSegments : list string :=
  [ "node_modules/"; ".git/"; "build/"; "dist/" ].

Definition endsIn (path ending : string) : Prop :=
  exists pre, path = pre ++ ending.

Definition containsText (path part : string) : Prop :=
  exists pre post, path = pre ++ part ++ post.

Definition excludedPath (path : string) : Prop :=
  (exists ext, In ext binaryExtensions /\ hasSuffixIgnoreCase path ext)
  \/ (exists ending, In ending excludedEndings /\ endsIn path ending)
  \/ (exists segment, In segment excludedSegments /\ containsText path segment).


Definition resourceState (event : GitLabWebhookEvent.t) : option string :=
  match GitLabWebhookEvent.object event with
  | GitLabIssueEvent i => Some (GitLabIssue.state i)
  | GitLabMergeRequestEvent mr => Some (GitLabMergeRequest.state mr)
  | _ => None
  end.

Definition resourceTitle (event : GitLabWebhookEvent.t) : string :=
  match GitLabWebhookEvent.object event with
  | GitLabIssueEvent i => GitLabIssue.title i
  | GitLabMergeRequestEvent mr => GitLabMergeRequest.title mr
  | _ => ""
  end.

Definition resourceDescription (event : GitLabWebhookEvent.t) : string :=
  match GitLabWebhookEvent.object event with
  | GitLabIssueEvent i => orEmpty (GitLabIssue.description i)
  | GitLabMergeRequestEvent mr => orEmpty (GitLabMergeRequest.description mr)
  | _ => ""
  end.

End Spec.

(** ** Sample data for the examples *)

Module Sample.

Definition config : GitLabActionConfig.t :=
  {| GitLabActionConfig.triggerPhrase := "@claude";
     GitLabActionConfig.assigneeTrigger := Some "claude-assistant";
     GitLabActionConfig.labelTrigger := Some "claude";
     GitLabActionConfig.allowedTools := None;
     GitLabActionConfig.disallowedTools := None |}.

Definition alice : GitLabUser.t := GitLabUser.mk 7 "alice" (Some "Alice Doe").
Definition assistant : GitLabUser.t := GitLabUser.mk 8 "claude-assistant" None.
Definition renovate : GitLabUser.t := GitLabUser.mk 9 "Renovate-BOT" None.
Definition deployer : GitLabUser.t := GitLabUser.mk 10 "deploy" (Some "Deploy Service").

Definition project : GitLabProject.t := GitLabProject.mk 42 "group/app".

Definition claudeLabel : GitLabLabel.t := GitLabLabel.mk 3 "claude" "#ff0000".

Definition noteAttributes (body noteable_type : string) (system : bool) : NoteAttributes.t :=
  {| NoteAttributes.id := 501;
     NoteAttributes.note := body;
     NoteAttributes.noteable_type := noteable_type;
     NoteAttributes.created_at := "2024-05-01T10:00:00Z";
     NoteAttributes.updated_at := "2024-05-01T10:00:00Z";
     NoteAttributes.noteable_id := 9001;
     NoteAttributes.system := system |}.

Definition issueWith (title state : string) : GitLabIssue.t :=
  {| GitLabIssue.id := 9001;
     GitLabIssue.iid := 12;
     GitLabIssue.title := title;
     GitLabIssue.description := Some "Steps to reproduce";
     GitLabIssue.state := state |}.

Definition mergeRequestWith (title state : string) : GitLabMergeRequest.t :=
  {| GitLabMergeRequest.id := 9100;
     GitLabMergeRequest.iid := 5;
     GitLabMergeRequest.title := title;
     GitLabMergeRequest.description := None;
     GitLabMergeRequest.state := state;
     GitLabMergeRequest.source_branch := "feature/login" |}.

Definition eventBy (user : GitLabUser.t) (object : EventObject)
    (assignees : option (list GitLabUser.t))
    (labels : option (list GitLabLabel.t)) : GitLabWebhookEvent.t :=
  {| GitLabWebhookEvent.object := object;
     GitLabWebhookEvent.user := user;
     GitLabWebhookEvent.project := project;
     GitLabWebhookEvent.assignees := assignees;
     GitLabWebhookEvent.labels := labels |}.

(** A note of a bot account that mentions the phrase. *)
Definition botNote : GitLabWebhookEvent.t :=
  eventBy renovate
    (GitLabNoteEvent (noteAttributes "@claude please review" "Issue" false)
                     (Some (issueWith "Crash on start" "opened")) None)
    None None.

(** A human author whose display name matches a bot pattern. *)
Definition serviceIssue : GitLabWebhookEvent.t :=
  eventBy deployer (GitLabIssueEvent (issueWith "@claude fix the build" "opened"))
    (Some [assistant]) (Some [claudeLabel]).

(** An opened issue on which all three triggers match. *)
Definition issueAllThree : GitLabWebhookEvent.t :=
  eventBy alice (GitLabIssueEvent (issueWith "@claude fix the build" "opened"))
    (Some [alice; assistant]) (Some [claudeLabel]).

(** An opened merge request with the label and the phrase, not assigned. *)
Definition mergeRequestLabelAndPhrase : GitLabWebhookEvent.t :=
  eventBy alice (GitLabMergeRequestEvent (mergeRequestWith "@Claude review" "opened"))
    (Some [alice]) (Some [claudeLabel]).

(** An opened issue with the phrase only. *)
Definition issuePhraseOnly : GitLabWebhookEvent.t :=
  eventBy alice (GitLabIssueEvent (issueWith "@claude please fix the bug" "opened"))
    None None.

(** A closed issue and a merged merge request with the phrase only. *)
Definition closedIssuePhrase : GitLabWebhookEvent.t :=
  eventBy alice (GitLabIssueEvent (issueWith "@claude please fix the bug" "closed"))
    (Some []) (Some []).

Definition mergedMergeRequestPhrase : GitLabWebhookEvent.t :=
  eventBy alice (GitLabMergeRequestEvent (mergeRequestWith "@claude review" "merged"))
    None None.

(** A system note on a merge request that contains the phrase. *)
Definition systemNote : GitLabWebhookEvent.t :=
  eventBy alice
    (GitLabNoteEvent (noteAttributes "mentioned in @claude thread" "MergeRequest" true)
                     None (Some (mergeRequestWith "Login" "opened")))
    None None.

(** User notes. *)
Definition noteOnIssue (body : string) : GitLabWebhookEvent.t :=
  eventBy alice
    (GitLabNoteEvent (noteAttributes body "Issue" false)
                     (Some (issueWith "Crash on start" "opened")) None)
    None None.

(** A note on a commit: neither an issue nor a merge request is attached. *)
Definition noteOnCommit : GitLabWebhookEvent.t :=
  eventBy alice
    (GitLabNoteEvent (noteAttributes "@claude what does this do?" "Commit" false) None None)
    None None.

(** A repository client that serves every path but [missing.txt], and a
    decoder that knows the one blob the client serves. *)
Definition getFile (projectId : Z) (path ref : string) : Completion GitLabFile.t :=
  if String.eqb path "missing.txt" then Throw OtherError
  else Return {| GitLabFile.file_name := path;
                 GitLabFile.file_path := path;
                 GitLabFile.ref := ref;
                 GitLabFile.content := Some "aGVsbG8=" |}.

Definition decodeBase64 (content : string) : string :=
  if String.eqb content "aGVsbG8=" then "hello" else "".

Definition diffOf (path : string) (deleted : bool) : GitLabDiff.t :=
  {| GitLabDiff.old_path := path;
     GitLabDiff.new_path := path;
     GitLabDiff.new_file := false;
     GitLabDiff.renamed_file := false;
     GitLabDiff.deleted_file := deleted;
     GitLabDiff.diff := "@@ -1 +1 @@" |}.

Definition changes : list GitLabDiff.t :=
  [ diffOf "src/app.ts" false;
    diffOf "package-lock.json" false;
    diffOf "src/old.ts" true;
    diffOf "assets/Logo.PNG" false;
    diffOf "web/node_modules/left-pad/index.js" false;
    diffOf "missing.txt" false;
    diffOf "README.md" false ].

End Sample.

(** ** A reader for a fragment of JSON

    The properties of [validatePipelineTrigger] are proved for every
    [JSON_parse].  To evaluate examples, [JSONReader.parse] reads the
    fragment of JSON made of [null], [true], [false], integers, strings
    without escape sequences, arrays and objects; any other text is
    rejected with [SyntaxError]. *)

Module JSONReader.

Definition quote : ascii := ascii_of_nat 34.
Definition backslash : ascii := ascii_of_nat 92.

Definition isSpace (c : ascii) : bool :=
  let n := nat_of_ascii c in
  Nat.eqb n 32 || Nat.eqb n 9 || Nat.eqb n 10 || Nat.eqb n 13.

Definition isDigit (c : ascii) : bool :=
  let n := nat_of_ascii c in (48 <=? n)%nat && (n <=? 57)%nat.

Definition digitValue (c : ascii) : Z := Z.of_nat (nat_of_ascii c - 48).

Fixpoint skipSpace (s : string) : string :=
  match s with
  | String c rest => if isSpace c then skipSpace rest else s
  | EmptyString => s
  end.

(** [expect word s]: the rest of [s] after the prefix [word]. *)
Fixpoint expect (word s : string) : option string :=
  match word, s with
  | EmptyString, _ => Some s
  | String a word', String b s' => if Ascii.eqb a b then expect word' s' else None
  | String _ _, EmptyString => None
  end.

(** The characters up to the closing quote. *)
Fixpoint readString (s : string) : option (string * string) :=
  match s with
  | EmptyString => None
  | String c rest =>
      if Ascii.eqb c quote then Some ("", rest)
      else if Ascii.eqb c backslash || (nat_of_ascii c <? 32)%nat then None
      else match readString rest with
           | Some (str, rest') => Some (String c str, rest')
           | None => None
           end
  end.

Fixpoint readDigits (acc : Z) (s : string) : Z * string :=
  match s with
  | String c rest =>
      if isDigit c then readDigits (10 * acc + digitValue c) rest else (acc, s)
  | EmptyString => (acc, s)
  end.

(** An integer literal: no leading zero, no fraction, no exponent. *)
Definition readNatural (s : string) : option (Z * string) :=
  match s with
  | String c rest =>
      if negb (isDigit c) then None
      else
        let '(n, rest') :=
          if Ascii.eqb c "0" then (0%Z, rest) else readDigits (digitValue c) rest in
        match rest' with
        | String d _ =>
            if isDigit d || Ascii.eqb d "." || Ascii.eqb d "e" || Ascii.eqb d "E"
            then None else Some (n, rest')
        | EmptyString => Some (n, rest')
        end
  | EmptyString => None
  end.

Fixpoint readValue (fuel : nat) (s : string) : option (JSON * string) :=
  match fuel with
  | O => None
  | S fuel' =>
      match skipSpace s with
      | EmptyString => None
      | String c rest =>
          if Ascii.eqb c "n" then option_map (pair JNull) (expect "ull" rest)
          else if Ascii.eqb c "t" then option_map (pair (JBool true)) (expect "rue" rest)
          else if Ascii.eqb c "f" then option_map (pair (JBool false)) (expect "alse" rest)
          else if Ascii.eqb c quote then
            option_map (fun r => (JString (fst r), snd r)) (readString rest)
          else if Ascii.eqb c "-" then
            option_map (fun r => (JNumber (- fst r), snd r)) (readNatural rest)
          else if isDigit c then
            option_map (fun r => (JNumber (fst r), snd r)) (readNatural (String c rest))
          else if Ascii.eqb c "[" then
            match skipSpace rest with
            | String "]" rest' => Some (JArray [], rest')
            | _ => readElements fuel' rest []
            end
          else if Ascii.eqb c "{" then
            match skipSpace rest with
            | String "}" rest' => Some (JObject [], rest')
            | _ => readMembers fuel' rest []
            end
          else None
      end
  end

with readElements (fuel : nat) (s : string) (items : list JSON) : option (JSON * string) :=
  match fuel with
  | O => None
  | S fuel' =>
      match readValue fuel' s with
      | Some (item, rest) =>
          match skipSpace rest with
          | String "," rest' => readElements fuel' rest' (items ++ [item])
          | String "]" rest' => Some (JArray (items ++ [item]), rest')
          | _ => None
          end
      | None => None
      end
  end

with readMembers (fuel : nat) (s : string) (members : list (string * JSON))
  : option (JSON * string) :=
  match fuel with
  | O => None
  | S fuel' =>
      match skipSpace s with
      | String c rest =>
          if negb (Ascii.eqb c quote) then None
          else
            match readString rest with
            | Some (key, rest1) =>
                match skipSpace rest1 with
                | String ":" rest2 =>
                    match readValue fuel' rest2 with
                    | Some (item, rest3) =>
                        match skipSpace rest3 with
                        | String "," rest4 =>
                            readMembers fuel' rest4 (members ++ [(key, item)])
                        | String "}" rest4 =>
                            Some (JObject (members ++ [(key, item)]), rest4)
                        | _ => None
                        end
                    | None => None
                    end
                | _ => None
                end
            | None => None
            end
      | EmptyString => None
      end
  end.

Definition parse (text : string) : Completion JSON :=
  match readValue (2 * String.length text + 2) text with
  | Some (data, rest) =>
      match skipSpace rest with
      | EmptyString => Return data
      | String _ _ => Throw SyntaxError
      end
  | None => Throw SyntaxError
  end.

(** [{"key": <text>}] *)
Definition member (key text : string) : string :=
  String quote key ++ String quote (": " ++ text).
Definition quoted (text : string) : string :=
  String quote text ++ String quote "".

End JSONReader.

(** ** ASCII text *)

Module Text.

(** Every character is below 128. *)
Fixpoint isASCII (s : string) : bool :=
  match s with
  | EmptyString => true
  | String c rest => (nat_of_ascii c <? 128)%nat && isASCII rest
  end.

(** The texts of an event that the phrase test reads. *)
Definition phraseTexts (event : GitLabWebhookEvent.t) : list string :=
  match GitLabWebhookEvent.object event with
  | GitLabNoteEvent note _ _ => [NoteAttributes.note note]
  | GitLabIssueEvent i => [GitLabIssue.title i; orEmpty (GitLabIssue.description i)]
  | GitLabMergeRequestEvent mr =>
      [GitLabMergeRequest.title mr; orEmpty (GitLabMergeRequest.description mr)]
  | GitLabPushEvent | GitLabTagPushEvent => []
  end.

End Text.

(** ** Further vocabulary: what the classifier decides *)

Module Behaviour.

(** The result [validateTrigger] starts from and returns when nothing
    matches. *)
Definition untouched (event : GitLabWebhookEvent.t) : TriggerResult.t :=
  {| TriggerResult.shouldTrigger := false;
     TriggerResult.triggerType := None;
     TriggerResult.resourceType := None;
     TriggerResult.resourceId := None;
     TriggerResult.projectId := Some (GitLabProject.id (GitLabWebhookEvent.project event));
     TriggerResult.triggeredBy := Some (GitLabWebhookEvent.user event);
     TriggerResult.triggerComment := None |}.

(** The content of an event asks for the assistant. *)
Definition contentTriggers (config : GitLabActionConfig.t)
    (event : GitLabWebhookEvent.t) : Prop :=
  match GitLabWebhookEvent.object event with
  | GitLabNoteEvent note _ _ =>
      NoteAttributes.system note = false
      /\ Spec.phraseInText (GitLabActionConfig.triggerPhrase config)
           (NoteAttributes.note note)
  | GitLabIssueEvent _ | GitLabMergeRequestEvent _ =>
      Spec.assigneeMatches config event
      \/ Spec.labelMatches config event
      \/ (Spec.resourceState event = Some "opened"
          /\ (Spec.phraseInText (GitLabActionConfig.triggerPhrase config)
                (Spec.resourceTitle event)
              \/ Spec.phraseInText (GitLabActionConfig.triggerPhrase config)
                   (Spec.resourceDescription event)))
  | GitLabPushEvent | GitLabTagPushEvent => False
  end.

(** The resource a triggering event points at: the project-scoped [iid]
    of the issue or merge request of the event, for a note the attached
    parent that [noteable_type] names, if any. *)
Definition targetResource (event : GitLabWebhookEvent.t) : option (ResourceType * Z) :=
  match GitLabWebhookEvent.object event with
  | GitLabIssueEvent i => Some (issue, GitLabIssue.iid i)
  | GitLabMergeRequestEvent mr => Some (merge_request, GitLabMergeRequest.iid mr)
  | GitLabNoteEvent note (Some i) mr =>
      if String.eqb (NoteAttributes.noteable_type note) "Issue"
      then Some (issue, GitLabIssue.iid i)
      else match mr with
           | Some m =>
               if String.eqb (NoteAttributes.noteable_type note) "MergeRequest"
               then Some (merge_request, GitLabMergeRequest.iid m)
               else None
           | None => None
           end
  | GitLabNoteEvent note None (Some m) =>
      if String.eqb (NoteAttributes.noteable_type note) "MergeRequest"
      then Some (merge_request, GitLabMergeRequest.iid m)
      else None
  | GitLabNoteEvent _ None None => None
  | GitLabPushEvent | GitLabTagPushEvent => None
  end.

(** A result names a resource of the given kind: the kind is set and the
    identifier is a number other than [0]. *)
Definition namesResource (result : TriggerResult.t) (kind : ResourceType) : Prop :=
  TriggerResult.resourceType result = Some kind
  /\ exists iid, TriggerResult.resourceId result = Some iid /\ iid <> 0%Z.

(** The status of a diff by precedence, and the line that shows it. *)
Definition diffStatus (diff : GitLabDiff.t) : string :=
  if GitLabDiff.renamed_file diff then "renamed"
  else if GitLabDiff.deleted_file diff then "deleted"
  else if GitLabDiff.new_file diff then "added"
  else "modified".

Definition diffLine (diff : GitLabDiff.t) : string :=
  "- **" ++ diffStatus diff ++ "**: "
  ++ (if String.eqb (GitLabDiff.new_path diff) ""
      then GitLabDiff.old_path diff else GitLabDiff.new_path diff)
  ++ (if GitLabDiff.renamed_file diff
      then if String.eqb (GitLabDiff.old_path diff) (GitLabDiff.new_path diff)
           then "" else " (from " ++ GitLabDiff.old_path diff ++ ")"
      else "").

(** The resource a result points at, when both its fields are set. *)
Definition target (result : TriggerResult.t) : option (ResourceType * Z) :=
  match TriggerResult.resourceType result, TriggerResult.resourceId result with
  | Some kind, Some iid => Some (kind, iid)
  | _, _ => None
  end.

End Behaviour.

(** ** More of the JavaScript library *)

From Stdlib Require Import DecimalString.

Module JSMore.

(** [s.split(sep)] for a one-character separator: the pieces between the
    occurrences of [sep]; [''.split(sep)] is [['']]. *)
Fixpoint split (sep : ascii) (s : string) : list string :=
  match s with
  | EmptyString => [""]
  | String c rest =>
      if Ascii.eqb c sep then "" :: split sep rest
      else match split sep rest with
           | piece :: pieces => String c piece :: pieces
           | [] => [String c ""]
           end
  end.

(** The number of occurrences of a character. *)
Fixpoint count (c : ascii) (s : string) : nat :=
  match s with
  | EmptyString => 0
  | String a rest => (if Ascii.eqb a c then 1 else 0) + count c rest
  end.

(** A natural number in a template literal. *)
Definition numberToString (n : nat) : string :=
  NilZero.string_of_uint (Nat.to_uint n).

(** The line feed of ['\n']. *)
Definition nl : string := String (ascii_of_nat 10) "".

(** A [number] used as a condition: [null], [undefined] and [0] are falsy. *)
Definition truthyNumber (o : option Z) : option Z :=
  match o with
  | Some n => if Z.eqb n 0 then None else Some n
  | None => None
  end.

End JSMore.

(** ** The hand-over of the tool lists from the receiver to the pipeline

    The webhook receiver forwards [config.allowedTools] and
    [config.disallowedTools] as pipeline variables
    ([webhook-handler.ts], [triggerPipeline]); the pipeline entry points
    read them back from the environment. *)

Module ToolHandOver.

(** [if (tools?.length) formData.append(name, tools.join(','))]: the value
    of the variable, when it is appended at all. *)
Definition toolsVariable (tools : option (list string)) : option string :=
  match CreatePrompt.nonEmptyArray tools with
  | Some list => Some (JSString.join "," list)
  | None => None
  end.

(** [process.env.NAME?.split(',')] *)
Definition toolsFromEnv (variable : option string) : option (list string) :=
  match variable with
  | Some text => Some (JSMore.split "," text)
  | None => None
  end.

(** No tool name holds a comma. *)
Definition commaFree (tools : option (list string)) : Prop :=
  forall tool, In tool (Spec.orNone tools) -> JSMore.count "," tool = 0.

End ToolHandOver.

(** ** More of the data model *)

Module GitLabCommit.
Record t : Type := mk {
  id : string;
  short_id : string;
  title : string;
  author_name : string;
  committed_date : string
}.
End GitLabCommit.

(** An entry of [getRepositoryTree]. *)
Module TreeItem.
Record t : Type := mk {
  path : string;
  type : string       (* ['blob'] or ['tree'] *)
}.
End TreeItem.

Module EntryType.
Inductive t : Type := file | directory.
End EntryType.

Module ProjectFile.
Record t : Type := mk {
  path : string;
  type : EntryType.t
}.
End ProjectFile.

Module GitLabContext.
Record t : Type := mk {
  project : GitLabProject.t;
  issue : option GitLabIssue.t;
  mergeRequest : option GitLabMergeRequest.t;
  notes : list GitLabNote.t;
  triggerResult : TriggerResult.t;
  files : list GitLabFile.t;
  commits : list GitLabCommit.t;
  diffs : list GitLabDiff.t
}.
End GitLabContext.

(** The repository API client the fetcher is given: every call either
    answers or throws. *)
Module GitLabAPIClient.
Record t : Type := mk {
  getProject : Z -> Completion GitLabProject.t;
  getIssue : Z -> Z -> Completion GitLabIssue.t;
  getIssueNotes : Z -> Z -> Completion (list GitLabNote.t);
  getMergeRequest : Z -> Z -> Completion GitLabMergeRequest.t;
  getMergeRequestNotes : Z -> Z -> Completion (list GitLabNote.t);
  getMergeRequestCommits : Z -> Z -> Completion (list GitLabCommit.t);
  (* the [changes] member of the answer *)
  getMergeRequestChanges : Z -> Z -> Completion (list GitLabDiff.t);
  getFile : Z -> string -> string -> Completion GitLabFile.t;
  (* [getRepositoryTree(projectId, path, ref, recursive)] *)
  getRepositoryTree : Z -> string -> string -> bool -> Completion (list TreeItem.t)
}.
End GitLabAPIClient.

(** ** The rest of the fetcher ([src/gitlab/data/formatter.ts]) *)

Module GitLabDataFetcherMore.

Import GitLabDataFetcher.

Section WithClient.

Variable client : GitLabAPIClient.t.
Variable decodeBase64 : string -> string.

Definition fetchFullContext (projectId : Z) (triggerResult : TriggerResult.t)
  : Completion GitLabContext.t :=
  project <- GitLabAPIClient.getProject client projectId ;;
  match TriggerResult.resourceType triggerResult,
        JSMore.truthyNumber (TriggerResult.resourceId triggerResult) with
  | Some issue, Some resourceId =>
      issue_ <- GitLabAPIClient.getIssue client projectId resourceId ;;
      notes <- GitLabAPIClient.getIssueNotes client projectId resourceId ;;
      Return {| GitLabContext.project := project;
                GitLabContext.issue := Some issue_;
                GitLabContext.mergeRequest := None;
                GitLabContext.notes := notes;
                GitLabContext.triggerResult := triggerResult;
                GitLabContext.files := [];
                GitLabContext.commits := [];
                GitLabContext.diffs := [] |}
  | Some merge_request, Some resourceId =>
      mergeRequest <- GitLabAPIClient.getMergeRequest client projectId resourceId ;;
      notes <- GitLabAPIClient.getMergeRequestNotes client projectId resourceId ;;
      commits <- GitLabAPIClient.getMergeRequestCommits client projectId resourceId ;;
      diffs <- GitLabAPIClient.getMergeRequestChanges client projectId resourceId ;;
      let files :=
        fetchModifiedFiles (GitLabAPIClient.getFile client) decodeBase64
          projectId diffs (GitLabMergeRequest.source_branch mergeRequest) in
      Return {| GitLabContext.project := project;
                GitLabContext.issue := None;
                GitLabContext.mergeRequest := Some mergeRequest;
                GitLabContext.notes := notes;
                GitLabContext.triggerResult := triggerResult;
                GitLabContext.files := files;
                GitLabContext.commits := commits;
                GitLabContext.diffs := diffs |}
  | _, _ =>
      Return {| GitLabContext.project := project;
                GitLabContext.issue := None;
                GitLabContext.mergeRequest := None;
                GitLabContext.notes := [];
                GitLabContext.triggerResult := triggerResult;
                GitLabContext.files := [];
                GitLabContext.commits := [];
                GitLabContext.diffs := [] |}
  end.

(** [item.path.split('/').length] *)
Definition depth (path : string) : nat :=
  List.length (JSMore.split "/" path).

(** [fetchProjectFiles(projectId, ref = 'main', maxDepth = 3)] *)
Definition fetchProjectFiles (projectId : Z) (ref : option string)
    (maxDepth : option Z) : Completion (list ProjectFile.t) :=
  let ref := match ref with Some r => r | None => "main" end in
  let maxDepth := match maxDepth with Some d => d | None => 3%Z end in
  tree <- GitLabAPIClient.getRepositoryTree client projectId "" ref true ;;
  Return
    (List.map
       (fun item =>
          {| ProjectFile.path := TreeItem.path item;
             ProjectFile.type :=
               if String.eqb (TreeItem.type item) "blob"
               then EntryType.file else EntryType.directory |})
       (filter
          (fun item =>
             (Z.of_nat (depth (TreeItem.path item)) <=? maxDepth)%Z
             && isRelevantFile (TreeItem.path item))
          tree)).

End WithClient.

End GitLabDataFetcherMore.

(** ** The formatter ([src/gitlab/data/formatter.ts]) *)

Module GitLabDataFormatter.

Import JSMore.

(** [content.length > 10000] and [content.substring(0, 10000)] *)
Definition contentLimit : nat := 100 * 100.

Section WithLocale.

(** [new Date(text).toLocaleString()], which depends on the locale and the
    time zone of the process. *)
Variable toLocaleString : string -> string.

Definition formatNotes (notes : list GitLabNote.t) : string :=
  let userNotes := filter (fun note => negb (GitLabNote.system note)) notes in
  if Nat.eqb (List.length userNotes) 0 then
    "## Comments" ++ nl ++ "No comments yet."
  else
    let formattedNotes :=
      JSString.join (nl ++ nl)
        (List.map
           (fun note =>
              let timestamp := toLocaleString (GitLabNote.created_at note) in
              "### Comment by @" ++ GitLabUser.username (GitLabNote.author note)
              ++ " (" ++ timestamp ++ ")" ++ nl ++ GitLabNote.body note)
           userNotes) in
    "## Comments" ++ nl ++ formattedNotes.

End WithLocale.

Definition formatDiffs (diffs : list GitLabDiff.t) : string :=
  if Nat.eqb (List.length diffs) 0 then
    "## File Changes" ++ nl ++ "No file changes."
  else
    let formattedDiffs :=
      JSString.join nl
        (List.map
           (fun diff =>
              let status := "modified" in
              let status := if GitLabDiff.new_file diff then "added" else status in
              let status := if GitLabDiff.deleted_file diff then "deleted" else status in
              let status := if GitLabDiff.renamed_file diff then "renamed" else status in
              let path :=
                if JSString.truthy (GitLabDiff.new_path diff)
                then GitLabDiff.new_path diff else GitLabDiff.old_path diff in
              "- **" ++ status ++ "**: " ++ path
              ++ (if GitLabDiff.renamed_file diff
                     && negb (String.eqb (GitLabDiff.old_path diff)
                                         (GitLabDiff.new_path diff))
                  then " (from " ++ GitLabDiff.old_path diff ++ ")" else ""))
           diffs) in
    "## File Changes (" ++ numberToString (List.length diffs) ++ " files)" ++ nl
    ++ formattedDiffs.

Definition formatFiles (files : list GitLabFile.t) : string :=
  if Nat.eqb (List.length files) 0 then
    "## File Contents" ++ nl ++ "No files to display."
  else
    let formattedFiles :=
      JSString.join (nl ++ nl)
        (List.map
           (fun file =>
              let content :=
                match truthyString (GitLabFile.content file) with
                | Some text => text
                | None => "Content not available"
                end in
              let truncated :=
                if (contentLimit <? String.length content)%nat
                then String.substring 0 contentLimit content
                     ++ nl ++ nl ++ "... (content truncated)"
                else content in
              "### File: " ++ GitLabFile.file_path file ++ nl
              ++ "```" ++ nl ++ truncated ++ nl ++ "```")
           files) in
    "## File Contents" ++ nl ++ formattedFiles.

End GitLabDataFormatter.

(** ** Event labels of the prompt builder, and the direct trigger *)

Module CreatePromptMore.

Module EventLabel.
Record t : Type := mk {
  eventType : string;
  triggerContext : string
}.
End EventLabel.

(** An optional string inside a template literal. *)
Definition interpolate (o : option string) : string :=
  match o with
  | Some s => s
  | None => "undefined"
  end.

Definition getEventTypeAndContext (context : GitLabContext.t)
    (config : GitLabActionConfig.t) : EventLabel.t :=
  let triggerResult := GitLabContext.triggerResult context in
  match TriggerResult.triggerType triggerResult with
  | Some comment =>
      if isSome (GitLabContext.mergeRequest context) then
        EventLabel.mk "MR_COMMENT"
          ("merge request comment with '" ++ GitLabActionConfig.triggerPhrase config ++ "'")
      else
        EventLabel.mk "ISSUE_COMMENT"
          ("issue comment with '" ++ GitLabActionConfig.triggerPhrase config ++ "'")
  | Some assignee =>
      if isSome (GitLabContext.mergeRequest context) then
        EventLabel.mk "MR_ASSIGNED"
          ("merge request assigned to '"
           ++ interpolate (GitLabActionConfig.assigneeTrigger config) ++ "'")
      else
        EventLabel.mk "ISSUE_ASSIGNED"
          ("issue assigned to '"
           ++ interpolate (GitLabActionConfig.assigneeTrigger config) ++ "'")
  | Some label =>
      if isSome (GitLabContext.mergeRequest context) then
        EventLabel.mk "MR_LABELED"
          ("merge request labeled with '"
           ++ interpolate (GitLabActionConfig.labelTrigger config) ++ "'")
      else
        EventLabel.mk "ISSUE_LABELED"
          ("issue labeled with '"
           ++ interpolate (GitLabActionConfig.labelTrigger config) ++ "'")
  | Some direct =>
      EventLabel.mk "DIRECT_TRIGGER" "direct programmatic trigger"
  | None =>
      EventLabel.mk "UNKNOWN" "unknown trigger type"
  end.

(** [validateDirectTrigger] of the trigger validator. *)
Definition validateDirectTrigger (projectId : Z) (resourceType : ResourceType)
    (resourceId : Z) (prompt : string) (userId : option Z) : TriggerResult.t :=
  {| TriggerResult.shouldTrigger := true;
     TriggerResult.triggerType := Some direct;
     TriggerResult.resourceType := Some resourceType;
     TriggerResult.resourceId := Some resourceId;
     TriggerResult.projectId := Some projectId;
     TriggerResult.triggeredBy :=
       match JSMore.truthyNumber userId with
       | Some id => Some (GitLabUser.mk id "direct" (Some "Direct Trigger"))
       | None => None
       end;
     TriggerResult.triggerComment := None |}.

(** The label the prompt is expected to carry for a trigger type on a
    resource kind. *)
Definition expectedLabel (kind : ResourceType) (type : TriggerType) : string :=
  match type with
  | direct => "DIRECT_TRIGGER"
  | _ =>
      (match kind with issue => "ISSUE_" | merge_request => "MR_" end)
      ++ (match type with
          | comment => "COMMENT"
          | assignee => "ASSIGNED"
          | label => "LABELED"
          | direct => ""
          end)
  end.

End CreatePromptMore.

(** ** The signature check of the webhook receiver
    ([webhook-receiver/src/server.ts]) *)

Module WebhookServer.

(** What the middleware does with a request: hand it on, or answer it. *)
Inductive Verdict : Type :=
| next
| respond (status : Z) (error : string).

(** [webhookSecret] is [process.env.GITLAB_WEBHOOK_SECRET], [signature] the
    [x-gitlab-token] header of the request. *)
Definition verifyWebhookSignature (webhookSecret signature : option string) : Verdict :=
  match truthyString webhookSecret with
  | None => next
  | Some secret =>
      match truthyString signature with
      | None => respond 401 "Missing webhook signature"
      | Some given =>
          if negb (String.eqb given secret)
          then respond 401 "Invalid webhook signature"
          else next
      end
  end.

End WebhookServer.

(** ** More sample data *)

Module Sample2.

(** A client that has lost every file. *)
Definition failingGetFile (projectId : Z) (path ref : string) : Completion GitLabFile.t :=
  Throw OtherError.

(** A client that differs from [Sample.getFile] on lock files only. *)
Definition getFileNoLocks (projectId : Z) (path ref : string) : Completion GitLabFile.t :=
  if JSString.endsWith path "package-lock.json" then Throw OtherError
  else Sample.getFile projectId path ref.

(** A repository with one issue (12), one merge request (5) and the
    files of [Sample.getFile]; other identifiers are unknown. *)
Definition note (id : Z) (body : string) (system : bool) : GitLabNote.t :=
  {| GitLabNote.id := id;
     GitLabNote.body := body;
     GitLabNote.author := Sample.alice;
     GitLabNote.created_at := "2024-05-01T10:00:00Z";
     GitLabNote.updated_at := "2024-05-01T10:00:00Z";
     GitLabNote.system := system;
     GitLabNote.noteable_type := "Issue";
     GitLabNote.noteable_id := 9001 |}.

Definition client : GitLabAPIClient.t :=
  {| GitLabAPIClient.getProject := fun _ => Return Sample.project;
     GitLabAPIClient.getIssue :=
       fun _ iid => if Z.eqb iid 12 then Return (Sample.issueWith "Crash on start" "opened")
                    else Throw OtherError;
     GitLabAPIClient.getIssueNotes :=
       fun _ _ => Return [note 1 "changed the description" true;
                          note 2 "@claude please look" false];
     GitLabAPIClient.getMergeRequest :=
       fun _ iid => if Z.eqb iid 5 then Return (Sample.mergeRequestWith "Login" "opened")
                    else Throw OtherError;
     GitLabAPIClient.getMergeRequestNotes := fun _ _ => Return [];
     GitLabAPIClient.getMergeRequestCommits :=
       fun _ _ => Return [GitLabCommit.mk "4f2a9c1e" "4f2a9c1" "Add login" "Alice Doe"
                            "2024-05-01T09:00:00Z"];
     GitLabAPIClient.getMergeRequestChanges := fun _ _ => Return Sample.changes;
     GitLabAPIClient.getFile := Sample.getFile;
     GitLabAPIClient.getRepositoryTree :=
       fun _ _ _ _ =>
         Return [TreeItem.mk "src" "tree";
                 TreeItem.mk "src/app.ts" "blob";
                 TreeItem.mk "src/gitlab/data/deep/formatter.ts" "blob";
                 TreeItem.mk "yarn.lock" "blob";
                 TreeItem.mk "README.md" "blob"] |}.

(** The same repository with every file lost. *)
Definition clientWithoutFiles : GitLabAPIClient.t :=
  {| GitLabAPIClient.getProject := GitLabAPIClient.getProject client;
     GitLabAPIClient.getIssue := GitLabAPIClient.getIssue client;
     GitLabAPIClient.getIssueNotes := GitLabAPIClient.getIssueNotes client;
     GitLabAPIClient.getMergeRequest := GitLabAPIClient.getMergeRequest client;
     GitLabAPIClient.getMergeRequestNotes := GitLabAPIClient.getMergeRequestNotes client;
     GitLabAPIClient.getMergeRequestCommits := GitLabAPIClient.getMergeRequestCommits client;
     GitLabAPIClient.getMergeRequestChanges := GitLabAPIClient.getMergeRequestChanges client;
     GitLabAPIClient.getFile := failingGetFile;
     GitLabAPIClient.getRepositoryTree := GitLabAPIClient.getRepositoryTree client |}.

(** A stand-in for the locale-dependent date rendering. *)
Definition toLocaleString (iso : string) : string := "5/1/2024, 10:00:00 AM".

End Sample2.

(** * Properties *)

(** ** Strings *)

Module JSStringFacts.
Import JSString.

Lemma append_assoc (a b c : string) : (a ++ b) ++ c = a ++ (b ++ c).
Proof. induction a as [|x a IH]; simpl; [reflexivity | now rewrite IH]. Qed.

Lemma append_nil_r (a : string) : a ++ "" = a.
Proof. induction a as [|x a IH]; simpl; [reflexivity | now rewrite IH]. Qed.

Lemma map_append (f : ascii -> ascii) (a b : string) :
  map f (a ++ b) = map f a ++ map f b.
Proof. induction a as [|x a IH]; simpl; [reflexivity | now rewrite IH]. Qed.

(** A split of the image of [map f] comes from a split of the argument. *)
Lemma map_eq_append (f : ascii -> ascii) (s x y : string) :
  map f s = x ++ y ->
  exists s1 s2, s = s1 ++ s2 /\ map f s1 = x /\ map f s2 = y.
Proof.
  revert s; induction x as [|c x IH]; intros s H.
  - exists "", s; auto.
  - destruct s as [|d s]; simpl in H; [discriminate|].
    injection H as Hc Hs.
    destruct (IH _ Hs) as (s1 & s2 & -> & H1 & H2).
    exists (String d s1), s2; simpl; subst; auto.
Qed.

Lemma startsWith_spec (s p : string) :
  startsWith s p = true <-> exists post, s = p ++ post.
Proof.
  revert s; induction p as [|a p IH]; intros s; simpl.
  - split; [intros _; now exists s | reflexivity].
  - destruct s as [|b s].
    + split; [discriminate | intros [post H]; discriminate].
    + rewrite andb_true_iff, Ascii.eqb_eq, IH. split.
      * intros [-> [post ->]]. now exists post.
      * intros [post H]. injection H as -> ->. split; [reflexivity | now exists post].
Qed.

Lemma includes_spec (s p : string) :
  includes s p = true <-> exists pre post, s = pre ++ p ++ post.
Proof.
  induction s as [|c s IH]; simpl.
  - rewrite orb_false_r, startsWith_spec. split.
    + intros [post H]. now exists "", post.
    + intros (pre & post & H). destruct pre; simpl in H; [now exists post | discriminate].
  - rewrite orb_true_iff, startsWith_spec, IH. split.
    + intros [[post H] | (pre & post & ->)].
      * now exists "", post.
      * now exists (String c pre), post.
    + intros (pre & post & H). destruct pre as [|d pre]; simpl in H.
      * left. now exists post.
      * right. injection H as -> ->. now exists pre, post.
Qed.

Lemma endsWith_spec (s p : string) :
  endsWith s p = true <-> exists pre, s = pre ++ p.
Proof.
  induction s as [|c s IH]; cbn [endsWith].
  - rewrite orb_false_r, String.eqb_eq. split.
    + intros <-. now exists "".
    + intros [pre H]. destruct pre; simpl in H; [assumption | discriminate].
  - rewrite orb_true_iff, String.eqb_eq, IH. split.
    + intros [<- | [pre ->]]; [now exists "" | now exists (String c pre)].
    + intros [pre H]. destruct pre as [|d pre]; simpl in H.
      * now left.
      * right. injection H as -> ->. now exists pre.
Qed.

(** *** Letter case *)

Lemma code_bounded (c : ascii) : code c < 256.
Proof. apply nat_ascii_bounded. Qed.

Lemma code_ascii_of_nat (n : nat) : n < 256 -> code (ascii_of_nat n) = n.
Proof. apply nat_ascii_embedding. Qed.

Lemma code_inj (a b : ascii) : code a = code b -> a = b.
Proof.
  intros H. rewrite <- (ascii_nat_embedding a), <- (ascii_nat_embedding b).
  unfold code in H. now rewrite H.
Qed.

Lemma isUpper_iff (c : ascii) : isUpper c = true <-> 65 <= code c <= 90.
Proof. unfold isUpper. rewrite andb_true_iff, !Nat.leb_le. tauto. Qed.

Lemma isLower_iff (c : ascii) : isLower c = true <-> 97 <= code c <= 122.
Proof. unfold isLower. rewrite andb_true_iff, !Nat.leb_le. tauto. Qed.

Lemma code_lowerChar (c : ascii) :
  code (lowerChar c) = if isUpper c then code c + 32 else code c.
Proof.
  unfold lowerChar. destruct (isUpper c) eqn:E; [|reflexivity].
  apply isUpper_iff in E. apply code_ascii_of_nat. lia.
Qed.

Lemma code_upperChar (c : ascii) :
  code (upperChar c) = if isLower c then code c - 32 else code c.
Proof.
  unfold upperChar. destruct (isLower c) eqn:E; [|reflexivity].
  apply isLower_iff in E. apply code_ascii_of_nat. lia.
Qed.

(** Case analysis on whether a character is an upper- or lower-case letter,
    leaving arithmetic facts about its code. *)
Ltac letter_cases c :=
  let U := fresh "U" in
  let L := fresh "L" in
  destruct (isUpper c) eqn:U; destruct (isLower c) eqn:L;
  try (apply isUpper_iff in U); try (apply isLower_iff in L);
  try (apply not_true_iff_false in U; rewrite isUpper_iff in U);
  try (apply not_true_iff_false in L; rewrite isLower_iff in L).

Lemma sameLetter_lowerChar (a b : ascii) :
  sameLetter a b <-> lowerChar a = lowerChar b.
Proof.
  split.
  - intros H. apply code_inj. rewrite !code_lowerChar.
    destruct H as [-> | [[Ha Hb] | [Hb Ha]]]; [reflexivity | |].
    + apply isUpper_iff in Ha. letter_cases a; letter_cases b; lia.
    + apply isUpper_iff in Hb. letter_cases a; letter_cases b; lia.
  - intros H. apply (f_equal code) in H. rewrite !code_lowerChar in H.
    unfold sameLetter. rewrite !isUpper_iff.
    letter_cases a; letter_cases b;
      solve [ left; apply code_inj; lia | right; left; lia | right; right; lia ].
Qed.

Lemma sameLetter_upperChar (a b : ascii) :
  sameLetter a b <-> upperChar a = upperChar b.
Proof.
  split.
  - intros H. apply code_inj. rewrite !code_upperChar.
    destruct H as [-> | [[Ha Hb] | [Hb Ha]]]; [reflexivity | |].
    + apply isUpper_iff in Ha. letter_cases a; letter_cases b; lia.
    + apply isUpper_iff in Hb. letter_cases a; letter_cases b; lia.
  - intros H. apply (f_equal code) in H. rewrite !code_upperChar in H.
    unfold sameLetter. rewrite !isUpper_iff.
    letter_cases a; letter_cases b;
      solve [ left; apply code_inj; lia | right; left; lia | right; right; lia ].
Qed.

Lemma eqIgnoreCase_map (f : ascii -> ascii)
    (Hf : forall a b, sameLetter a b <-> f a = f b) (s t : string) :
  eqIgnoreCase s t <-> map f s = map f t.
Proof.
  split.
  - induction 1 as [|a b s t Hab _ IH]; simpl; [reflexivity|].
    apply Hf in Hab. now rewrite Hab, IH.
  - revert t; induction s as [|a s IH]; intros [|b t] H; simpl in H;
      try discriminate; [constructor|].
    injection H as Hab Hst. constructor; [now apply Hf | now apply IH].
Qed.

Lemma eqIgnoreCase_toLowerCase (s t : string) :
  eqIgnoreCase s t <-> toLowerCase s = toLowerCase t.
Proof. apply eqIgnoreCase_map, sameLetter_lowerChar. Qed.

Lemma eqIgnoreCase_toUpperCase (s t : string) :
  eqIgnoreCase s t <-> toUpperCase s = toUpperCase t.
Proof. apply eqIgnoreCase_map, sameLetter_upperChar. Qed.

(** The three searches, after folding case on both sides. *)
Lemma includes_fold (f : ascii -> ascii)
    (Hf : forall a b, sameLetter a b <-> f a = f b) (s lit : string) :
  includes (map f s) (map f lit) = true <-> containsIgnoreCase s lit.
Proof.
  rewrite includes_spec. unfold containsIgnoreCase. split.
  - intros (pre & post & H).
    apply map_eq_append in H as (s1 & s2 & -> & _ & H).
    apply map_eq_append in H as (occ & s3 & -> & H & _).
    exists s1, occ, s3. split; [reflexivity | now apply (eqIgnoreCase_map f Hf)].
  - intros (pre & occ & post & -> & H).
    apply (eqIgnoreCase_map f Hf) in H.
    exists (map f pre), (map f post). now rewrite !map_append, H.
Qed.

Lemma endsWith_fold (f : ascii -> ascii)
    (Hf : forall a b, sameLetter a b <-> f a = f b) (s lit : string) :
  endsWith (map f s) (map f lit) = true <-> hasSuffixIgnoreCase s lit.
Proof.
  rewrite endsWith_spec. unfold hasSuffixIgnoreCase. split.
  - intros (pre & H).
    apply map_eq_append in H as (s1 & occ & -> & _ & H).
    exists s1, occ. split; [reflexivity | now apply (eqIgnoreCase_map f Hf)].
  - intros (pre & occ & -> & H).
    apply (eqIgnoreCase_map f Hf) in H.
    exists (map f pre). now rewrite map_append, H.
Qed.

Lemma startsWith_fold (f : ascii -> ascii)
    (Hf : forall a b, sameLetter a b <-> f a = f b) (s lit : string) :
  startsWith (map f s) (map f lit) = true <-> hasPrefixIgnoreCase s lit.
Proof.
  rewrite startsWith_spec. unfold hasPrefixIgnoreCase. split.
  - intros (post & H).
    apply map_eq_append in H as (occ & s2 & -> & H & _).
    exists occ, s2. split; [reflexivity | now apply (eqIgnoreCase_map f Hf)].
  - intros (occ & post & -> & H).
    apply (eqIgnoreCase_map f Hf) in H.
    exists (map f post). now rewrite map_append, H.
Qed.

Lemma truthy_iff (s : string) : truthy s = true <-> s <> "".
Proof. unfold truthy. rewrite negb_true_iff. apply String.eqb_neq. Qed.

End JSStringFacts.

(** ** Regular expressions *)

Module RegExpFacts.
Import JSString JSStringFacts RegExp.

Lemma test_suffix_ignoreCase (lit s : string) :
  test (mk false (Lit lit) true true) s = true <-> hasSuffixIgnoreCase s lit.
Proof.
  unfold test, matchWord, canonicalize; cbn [words body existsb assertStart assertEnd ignoreCase].
  rewrite orb_false_r. apply endsWith_fold, sameLetter_upperChar.
Qed.

Lemma test_prefix_ignoreCase (lit s : string) :
  test (mk true (Lit lit) false true) s = true <-> hasPrefixIgnoreCase s lit.
Proof.
  unfold test, matchWord, canonicalize; cbn [words body existsb assertStart assertEnd ignoreCase].
  rewrite orb_false_r. apply startsWith_fold, sameLetter_upperChar.
Qed.

Lemma test_words (re : RegExp.t) (s : string) :
  test re s = true
  <-> exists w, In w (words (body re))
                /\ matchWord re (canonicalize re s) (canonicalize re w) = true.
Proof. unfold test. apply existsb_exists. Qed.

Lemma test_words_suffix_ignoreCase (p : Pattern) (s : string) :
  test (mk false p true true) s = true
  <-> exists w, In w (words p) /\ hasSuffixIgnoreCase s w.
Proof.
  rewrite test_words. cbn [body]. unfold matchWord, canonicalize; cbn.
  split; intros (w & Hw & H); exists w; (split; [exact Hw|]);
    now apply (endsWith_fold upperChar sameLetter_upperChar).
Qed.

Lemma test_words_suffix (p : Pattern) (s : string) :
  test (mk false p true false) s = true
  <-> exists w, In w (words p) /\ Spec.endsIn s w.
Proof.
  rewrite test_words. cbn [body]. unfold matchWord, canonicalize; cbn.
  split; intros (w & Hw & H); exists w; (split; [exact Hw|]);
    now apply endsWith_spec.
Qed.

Lemma test_words_infix (p : Pattern) (s : string) :
  test (mk false p false false) s = true
  <-> exists w, In w (words p) /\ Spec.containsText s w.
Proof.
  rewrite test_words. cbn [body]. unfold matchWord, canonicalize; cbn.
  split; intros (w & Hw & H); exists w; (split; [exact Hw|]);
    now apply includes_spec.
Qed.

End RegExpFacts.

(** ** The bot filter *)

Module BotFilter.
Import JSString JSStringFacts RegExp RegExpFacts GitLabTriggerValidator.

Lemma botPatterns_spec (s : string) :
  existsb (fun pattern => test pattern s) botPatterns = true <-> Spec.matchesBotPattern s.
Proof.
  unfold botPatterns, Spec.matchesBotPattern. cbn [existsb].
  rewrite !orb_true_iff, !test_suffix_ignoreCase, !test_prefix_ignoreCase.
  intuition discriminate.
Qed.

Lemma empty_matches_no_botPattern : ~ Spec.matchesBotPattern "".
Proof.
  rewrite <- botPatterns_spec. vm_compute. discriminate.
Qed.

(** [isBotUser] decides the bot predicate of the specification. *)
Lemma isBotUser_spec (user : GitLabUser.t) :
  isBotUser user = true <-> Spec.isBot user.
Proof.
  unfold isBotUser, Spec.isBot. rewrite orb_true_iff, !botPatterns_spec.
  destruct (GitLabUser.name user) as [display|]; simpl; split.
  - intros [H | H]; [now left | right; now exists display].
  - intros [H | (d & [= <-] & H)]; [now left | now right].
  - intros [H | H]; [now left | now destruct empty_matches_no_botPattern].
  - intros [H | (d & [=] & _)]. now left.
Qed.

End BotFilter.

(** ** The trigger classifier *)

Module TriggerClassifier.
Import JSString JSStringFacts GitLabTriggerValidator BotFilter.

Lemma eqb_lowerChar_at (a : ascii) :
  Ascii.eqb (lowerChar a) "@" = Ascii.eqb a "@".
Proof.
  destruct (Ascii.eqb_spec a "@") as [-> | Hne]; [reflexivity|].
  apply Ascii.eqb_neq. intros H. apply Hne, code_inj.
  apply (f_equal code) in H. rewrite code_lowerChar in H.
  change (code "@") with 64 in *.
  letter_cases a; lia.
Qed.

Lemma removeFirst_toLowerCase (s : string) :
  removeFirst "@" (toLowerCase s) = toLowerCase (removeFirst "@" s).
Proof.
  induction s as [|a s IH]; [reflexivity|].
  cbn [toLowerCase map removeFirst]. rewrite eqb_lowerChar_at.
  destruct (Ascii.eqb a "@"); [reflexivity|].
  cbn [map]. f_equal. exact IH.
Qed.

Lemma mentionForm_toLowerCase (phrase : string) :
  "@" ++ removeFirst "@" (toLowerCase phrase) = toLowerCase (Spec.mentionForm phrase).
Proof. rewrite removeFirst_toLowerCase. reflexivity. Qed.

(** [containsTriggerPhrase] decides the phrase test of the specification. *)
Lemma containsTriggerPhrase_spec (config : GitLabActionConfig.t) (text : string) :
  containsTriggerPhrase config text = true
  <-> Spec.phraseInText (GitLabActionConfig.triggerPhrase config) text.
Proof.
  unfold containsTriggerPhrase, Spec.phraseInText.
  rewrite mentionForm_toLowerCase.
  destruct (truthy text) eqn:T; cbn [negb].
  - apply truthy_iff in T.
    rewrite orb_true_iff.
    unfold toLowerCase. rewrite !(includes_fold lowerChar sameLetter_lowerChar).
    tauto.
  - apply not_true_iff_false in T. rewrite truthy_iff in T.
    split; [discriminate | tauto].
Qed.

Lemma existsb_eqb_In {A : Type} (key : A -> string) (wanted : string) (xs : list A) :
  existsb (fun x => String.eqb (key x) wanted) xs = true
  <-> In wanted (List.map key xs).
Proof.
  rewrite existsb_exists, in_map_iff. split.
  - intros (x & Hx & E). apply String.eqb_eq in E. now exists x.
  - intros (x & E & Hx). exists x. split; [assumption | now apply String.eqb_eq].
Qed.

Lemma truthyString_Some (o : option string) (s : string) :
  truthyString o = Some s <-> o = Some s /\ s <> "".
Proof.
  unfold truthyString. destruct o as [x|]; [|split; [discriminate | intros [[=] _]]].
  destruct (truthy x) eqn:T.
  - apply truthy_iff in T. split; [intros [= <-]; auto | intros [[= <-] _]; reflexivity].
  - apply not_true_iff_false in T. rewrite truthy_iff in T.
    split; [discriminate | intros [[= <-] H]; tauto].
Qed.

Lemma hasAssigneeTrigger_spec (config : GitLabActionConfig.t) (event : GitLabWebhookEvent.t) :
  hasAssigneeTrigger config event = true <-> Spec.assigneeMatches config event.
Proof.
  unfold hasAssigneeTrigger, Spec.assigneeMatches.
  destruct (truthyString (GitLabActionConfig.assigneeTrigger config)) as [wanted|] eqn:T.
  - apply truthyString_Some in T as [Hc Hne].
    destruct (GitLabWebhookEvent.assignees event) as [assignees|].
    + rewrite existsb_eqb_In. split.
      * intros H. now exists wanted, assignees.
      * intros (w & l & Hw & _ & [= <-] & H). congruence.
    + split; [discriminate | intros (w & l & _ & _ & [=] & _)].
  - split; [discriminate|].
    intros (w & l & Hw & Hne & _).
    assert (truthyString (GitLabActionConfig.assigneeTrigger config) = Some w)
      by now apply truthyString_Some.
    congruence.
Qed.

Lemma hasLabelTrigger_spec (config : GitLabActionConfig.t) (event : GitLabWebhookEvent.t) :
  hasLabelTrigger config event = true <-> Spec.labelMatches config event.
Proof.
  unfold hasLabelTrigger, Spec.labelMatches.
  destruct (truthyString (GitLabActionConfig.labelTrigger config)) as [wanted|] eqn:T.
  - apply truthyString_Some in T as [Hc Hne].
    destruct (GitLabWebhookEvent.labels event) as [labels|].
    + rewrite existsb_eqb_In. split.
      * intros H. now exists wanted, labels.
      * intros (w & l & Hw & _ & [= <-] & H). congruence.
    + split; [discriminate | intros (w & l & _ & _ & [=] & _)].
  - split; [discriminate|].
    intros (w & l & Hw & Hne & _).
    assert (truthyString (GitLabActionConfig.labelTrigger config) = Some w)
      by now apply truthyString_Some.
    congruence.
Qed.

Lemma not_isBot (user : GitLabUser.t) :
  ~ Spec.isBot user -> isBotUser user = false.
Proof. rewrite <- isBotUser_spec. apply not_true_is_false. Qed.

(** C1: an event whose acting user's username, or display name when
    present, matches one of the fixed bot patterns is never a trigger,
    whatever its kind and content: [validateTrigger] returns the initial
    result, with [shouldTrigger = false] and no trigger type. *)
Theorem bot_user_never_triggers
    (config : GitLabActionConfig.t) (event : GitLabWebhookEvent.t) :
  Spec.isBot (GitLabWebhookEvent.user event) ->
  TriggerResult.shouldTrigger (validateTrigger config event) = false
  /\ TriggerResult.triggerType (validateTrigger config event) = None.
Proof.
  intros H. apply isBotUser_spec in H.
  unfold validateTrigger. rewrite H. split; reflexivity.
Qed.

Lemma bot_user_never_triggers_witness :
  Spec.isBot (GitLabWebhookEvent.user Sample.botNote)
  /\ Spec.isBot (GitLabWebhookEvent.user Sample.serviceIssue)
  /\ TriggerResult.shouldTrigger (validateTrigger Sample.config Sample.botNote) = false
  /\ TriggerResult.shouldTrigger (validateTrigger Sample.config Sample.serviceIssue) = false.
Proof.
  assert (H1 : Spec.isBot (GitLabWebhookEvent.user Sample.botNote))
    by (apply isBotUser_spec; vm_compute; reflexivity).
  assert (H2 : Spec.isBot (GitLabWebhookEvent.user Sample.serviceIssue))
    by (apply isBotUser_spec; vm_compute; reflexivity).
  split; [exact H1 | split; [exact H2 | split]].
  - exact (proj1 (bot_user_never_triggers Sample.config Sample.botNote H1)).
  - exact (proj1 (bot_user_never_triggers Sample.config Sample.serviceIssue H2)).
Defined.

Lemma not_isBot_sample : ~ Spec.isBot Sample.alice.
Proof. rewrite <- isBotUser_spec. vm_compute. discriminate. Qed.

(** *** Note events *)

(** What [validateTrigger] does on a note event of a non-bot user. *)
Lemma validateTrigger_note (config : GitLabActionConfig.t) (event : GitLabWebhookEvent.t)
    (note : NoteAttributes.t) (i : option GitLabIssue.t)
    (mr : option GitLabMergeRequest.t) :
  GitLabWebhookEvent.object event = GitLabNoteEvent note i mr ->
  isBotUser (GitLabWebhookEvent.user event) = false ->
  exists result,
    validateTrigger config event = validateNoteEvent config event note i mr result
    /\ TriggerResult.shouldTrigger result = false
    /\ TriggerResult.resourceType result = None
    /\ TriggerResult.resourceId result = None.
Proof.
  intros Hobj Hbot. unfold validateTrigger. rewrite Hbot, Hobj.
  eexists. split; [reflexivity|]. cbn. auto.
Qed.

(** C7: a system-generated note is never a trigger, also when its body
    contains the configured trigger phrase. *)
Theorem system_note_never_triggers
    (config : GitLabActionConfig.t) (event : GitLabWebhookEvent.t)
    (note : NoteAttributes.t) (i : option GitLabIssue.t)
    (mr : option GitLabMergeRequest.t) :
  GitLabWebhookEvent.object event = GitLabNoteEvent note i mr ->
  NoteAttributes.system note = true ->
  TriggerResult.shouldTrigger (validateTrigger config event) = false.
Proof.
  intros Hobj Hsys. unfold validateTrigger.
  destruct (isBotUser (GitLabWebhookEvent.user event)); [reflexivity|].
  rewrite Hobj. unfold validateNoteEvent. rewrite Hsys. reflexivity.
Qed.

Lemma system_note_never_triggers_witness :
  containsTriggerPhrase Sample.config "mentioned in @claude thread" = true
  /\ TriggerResult.shouldTrigger (validateTrigger Sample.config Sample.systemNote) = false.
Proof.
  split; [vm_compute; reflexivity|].
  apply (system_note_never_triggers Sample.config Sample.systemNote
           (Sample.noteAttributes "mentioned in @claude thread" "MergeRequest" true)
           None (Some (Sample.mergeRequestWith "Login" "opened")));
    reflexivity.
Defined.

(** C6, as amended: for an ASCII trigger phrase and an ASCII body, a
    non-system note of a non-bot user whose non-empty body contains, in
    any letter case, the configured trigger phrase as it is configured
    (an [@] that belongs to the phrase included), or [@] followed by the
    phrase without its first [@], triggers with [triggerType = comment]. *)
Theorem note_with_phrase_triggers_comment
    (config : GitLabActionConfig.t) (event : GitLabWebhookEvent.t)
    (note : NoteAttributes.t) (i : option GitLabIssue.t)
    (mr : option GitLabMergeRequest.t) :
  Text.isASCII (GitLabActionConfig.triggerPhrase config) = true ->
  Text.isASCII (NoteAttributes.note note) = true ->
  GitLabWebhookEvent.object event = GitLabNoteEvent note i mr ->
  NoteAttributes.system note = false ->
  ~ Spec.isBot (GitLabWebhookEvent.user event) ->
  Spec.phraseInText (GitLabActionConfig.triggerPhrase config) (NoteAttributes.note note) ->
  TriggerResult.shouldTrigger (validateTrigger config event) = true
  /\ TriggerResult.triggerType (validateTrigger config event) = Some comment.
Proof.
  intros _ _ Hobj Hsys Hbot Hphrase.
  apply not_isBot in Hbot. apply containsTriggerPhrase_spec in Hphrase.
  destruct (validateTrigger_note config event note i mr Hobj Hbot) as (r & -> & _).
  unfold validateNoteEvent. rewrite Hsys, Hphrase.
  destruct (String.eqb (NoteAttributes.noteable_type note) "Issue"), i;
    destruct (String.eqb (NoteAttributes.noteable_type note) "MergeRequest"), mr;
    split; reflexivity.
Qed.

Lemma note_with_phrase_triggers_comment_witness :
  Text.isASCII "@claude" = true
  /\ Text.isASCII "Hey @CLAUDE, can you look at this?" = true
  /\ Spec.phraseInText "@claude" "Hey @CLAUDE, can you look at this?"
  /\ TriggerResult.shouldTrigger
       (validateTrigger Sample.config
          (Sample.noteOnIssue "Hey @CLAUDE, can you look at this?")) = true
  /\ TriggerResult.triggerType
       (validateTrigger Sample.config
          (Sample.noteOnIssue "Hey @CLAUDE, can you look at this?")) = Some comment.
Proof.
  assert (H : Spec.phraseInText "@claude" "Hey @CLAUDE, can you look at this?")
    by (apply (containsTriggerPhrase_spec Sample.config); vm_compute; reflexivity).
  split; [reflexivity | split; [reflexivity | split; [exact H|]]].
  exact (note_with_phrase_triggers_comment Sample.config
           (Sample.noteOnIssue "Hey @CLAUDE, can you look at this?")
           (Sample.noteAttributes "Hey @CLAUDE, can you look at this?" "Issue" false)
           (Some (Sample.issueWith "Crash on start" "opened")) None
           eq_refl eq_refl eq_refl eq_refl not_isBot_sample H).
Defined.

(** Without the phrase a note does not trigger. *)
Lemma note_without_phrase_does_not_trigger
    (config : GitLabActionConfig.t) (event : GitLabWebhookEvent.t)
    (note : NoteAttributes.t) (i : option GitLabIssue.t)
    (mr : option GitLabMergeRequest.t) :
  GitLabWebhookEvent.object event = GitLabNoteEvent note i mr ->
  ~ Spec.phraseInText (GitLabActionConfig.triggerPhrase config) (NoteAttributes.note note) ->
  TriggerResult.shouldTrigger (validateTrigger config event) = false.
Proof.
  intros Hobj Hphrase. rewrite <- containsTriggerPhrase_spec in Hphrase.
  apply not_true_is_false in Hphrase. unfold validateTrigger.
  destruct (isBotUser (GitLabWebhookEvent.user event)); [reflexivity|].
  rewrite Hobj. unfold validateNoteEvent. rewrite Hphrase.
  destruct (NoteAttributes.system note); reflexivity.
Qed.

(** C6, as stated, fails: with the phrase [@claude] a body that names
    the phrase without the leading [@] does not trigger. *)
Lemma note_phrase_without_at_counterexample :
  Spec.namesPhrase (GitLabActionConfig.triggerPhrase Sample.config) "claude, please fix this"
  /\ ~ Spec.isBot (GitLabWebhookEvent.user (Sample.noteOnIssue "claude, please fix this"))
  /\ GitLabWebhookEvent.object (Sample.noteOnIssue "claude, please fix this")
     = GitLabNoteEvent (Sample.noteAttributes "claude, please fix this" "Issue" false)
                       (Some (Sample.issueWith "Crash on start" "opened")) None
  /\ TriggerResult.shouldTrigger
       (validateTrigger Sample.config (Sample.noteOnIssue "claude, please fix this")) = false.
Proof.
  split; [|split; [exact not_isBot_sample | split; reflexivity]].
  right. exists "", "claude", ", please fix this".
  split; [reflexivity | apply eqIgnoreCase_toLowerCase; reflexivity].
Qed.

(** C10: a triggering note whose parent is neither an attached issue nor
    an attached merge request yields [shouldTrigger = true] with the
    trigger comment set, while [resourceType] and [resourceId] stay null. *)
Theorem note_trigger_without_resource
    (config : GitLabActionConfig.t) (event : GitLabWebhookEvent.t)
    (note : NoteAttributes.t) (i : option GitLabIssue.t)
    (mr : option GitLabMergeRequest.t) :
  GitLabWebhookEvent.object event = GitLabNoteEvent note i mr ->
  NoteAttributes.system note = false ->
  ~ Spec.isBot (GitLabWebhookEvent.user event) ->
  containsTriggerPhrase config (NoteAttributes.note note) = true ->
  ~ (NoteAttributes.noteable_type note = "Issue" /\ i <> None) ->
  ~ (NoteAttributes.noteable_type note = "MergeRequest" /\ mr <> None) ->
  TriggerResult.shouldTrigger (validateTrigger config event) = true
  /\ (exists c, TriggerResult.triggerComment (validateTrigger config event) = Some c
                /\ GitLabNote.id c = NoteAttributes.id note
                /\ GitLabNote.body c = NoteAttributes.note note
                /\ GitLabNote.author c = GitLabWebhookEvent.user event)
  /\ TriggerResult.resourceType (validateTrigger config event) = None
  /\ TriggerResult.resourceId (validateTrigger config event) = None.
Proof.
  intros Hobj Hsys Hbot Hphrase Hissue Hmr.
  apply not_isBot in Hbot.
  destruct (validateTrigger_note config event note i mr Hobj Hbot)
    as (r & -> & _ & Hrt & Hrid).
  unfold validateNoteEvent. rewrite Hsys, Hphrase.
  destruct (String.eqb_spec (NoteAttributes.noteable_type note) "Issue") as [Ei|Ei];
    destruct i as [i|];
    try (exfalso; apply Hissue; split; [assumption | discriminate]);
    destruct (String.eqb_spec (NoteAttributes.noteable_type note) "MergeRequest") as [Em|Em];
    destruct mr as [mr|];
    try (exfalso; apply Hmr; split; [assumption | discriminate]);
    cbn; (split; [reflexivity | split; [eexists; repeat split | split; assumption]]).
Qed.

Lemma note_trigger_without_resource_witness :
  TriggerResult.shouldTrigger (validateTrigger Sample.config Sample.noteOnCommit) = true
  /\ (exists c, TriggerResult.triggerComment (validateTrigger Sample.config Sample.noteOnCommit)
                = Some c
                /\ GitLabNote.id c = 501%Z
                /\ GitLabNote.body c = "@claude what does this do?"
                /\ GitLabNote.author c = Sample.alice)
  /\ TriggerResult.resourceType (validateTrigger Sample.config Sample.noteOnCommit) = None
  /\ TriggerResult.resourceId (validateTrigger Sample.config Sample.noteOnCommit) = None.
Proof.
  apply (note_trigger_without_resource Sample.config Sample.noteOnCommit
           (Sample.noteAttributes "@claude what does this do?" "Commit" false) None None).
  - reflexivity.
  - reflexivity.
  - exact not_isBot_sample.
  - vm_compute; reflexivity.
  - intros [H _]; discriminate H.
  - intros [H _]; discriminate H.
Defined.

(** *** Issue and merge-request events *)

Lemma validateIssueEvent_firstMatch (config : GitLabActionConfig.t)
    (event : GitLabWebhookEvent.t) (i : GitLabIssue.t) (result : TriggerResult.t) :
  TriggerResult.shouldTrigger result = false ->
  TriggerResult.triggerType result = None ->
  let decided :=
    Spec.firstMatch (hasAssigneeTrigger config event) (hasLabelTrigger config event)
      (String.eqb (GitLabIssue.state i) "opened")
      (containsTriggerPhrase config (GitLabIssue.title i)
       || containsTriggerPhrase config (orEmpty (GitLabIssue.description i))) in
  TriggerResult.triggerType (validateIssueEvent config event i result) = decided
  /\ TriggerResult.shouldTrigger (validateIssueEvent config event i result) = isSome decided.
Proof.
  intros Hs Ht. unfold validateIssueEvent, Spec.firstMatch.
  destruct (hasAssigneeTrigger config event); [split; reflexivity|].
  destruct (hasLabelTrigger config event); [split; reflexivity|].
  destruct (String.eqb (GitLabIssue.state i) "opened"); [|split; assumption].
  cbn [andb].
  destruct (containsTriggerPhrase config (GitLabIssue.title i)
            || containsTriggerPhrase config (orEmpty (GitLabIssue.description i)));
    split; (reflexivity || assumption).
Qed.

Lemma validateMergeRequestEvent_firstMatch (config : GitLabActionConfig.t)
    (event : GitLabWebhookEvent.t) (mr : GitLabMergeRequest.t) (result : TriggerResult.t) :
  TriggerResult.shouldTrigger result = false ->
  TriggerResult.triggerType result = None ->
  let decided :=
    Spec.firstMatch (hasAssigneeTrigger config event) (hasLabelTrigger config event)
      (String.eqb (GitLabMergeRequest.state mr) "opened")
      (containsTriggerPhrase config (GitLabMergeRequest.title mr)
       || containsTriggerPhrase config (orEmpty (GitLabMergeRequest.description mr))) in
  TriggerResult.triggerType (validateMergeRequestEvent config event mr result) = decided
  /\ TriggerResult.shouldTrigger (validateMergeRequestEvent config event mr result)
     = isSome decided.
Proof.
  intros Hs Ht. unfold validateMergeRequestEvent, Spec.firstMatch.
  destruct (hasAssigneeTrigger config event); [split; reflexivity|].
  destruct (hasLabelTrigger config event); [split; reflexivity|].
  destruct (String.eqb (GitLabMergeRequest.state mr) "opened"); [|split; assumption].
  cbn [andb].
  destruct (containsTriggerPhrase config (GitLabMergeRequest.title mr)
            || containsTriggerPhrase config (orEmpty (GitLabMergeRequest.description mr)));
    split; (reflexivity || assumption).
Qed.

(** On an issue or merge-request event of a non-bot user, [validateTrigger]
    is the first match of assignee, label, phrase. *)
Lemma validateTrigger_resource (config : GitLabActionConfig.t)
    (event : GitLabWebhookEvent.t) (state : string) :
  Spec.resourceState event = Some state ->
  ~ Spec.isBot (GitLabWebhookEvent.user event) ->
  let decided :=
    Spec.firstMatch (hasAssigneeTrigger config event) (hasLabelTrigger config event)
      (String.eqb state "opened")
      (containsTriggerPhrase config (Spec.resourceTitle event)
       || containsTriggerPhrase config (Spec.resourceDescription event)) in
  TriggerResult.triggerType (validateTrigger config event) = decided
  /\ TriggerResult.shouldTrigger (validateTrigger config event) = isSome decided.
Proof.
  intros Hstate Hbot. apply not_isBot in Hbot.
  unfold validateTrigger, Spec.resourceState, Spec.resourceTitle,
    Spec.resourceDescription in *.
  rewrite Hbot.
  destruct (GitLabWebhookEvent.object event) as [n i mr | i | mr | |];
    try discriminate; injection Hstate as <-.
  - now apply validateIssueEvent_firstMatch.
  - now apply validateMergeRequestEvent_firstMatch.
Qed.




(** C8: on an issue or merge-request event of a non-bot user that matches
    neither the assignee nor the label trigger, a resource whose state is
    not [opened] never triggers, whatever its title and description are:
    the phrase is looked for only when [state = opened]. *)
Theorem phrase_only_checked_when_opened
    (config : GitLabActionConfig.t) (event : GitLabWebhookEvent.t) (state : string) :
  Spec.resourceState event = Some state ->
  ~ Spec.isBot (GitLabWebhookEvent.user event) ->
  ~ Spec.assigneeMatches config event ->
  ~ Spec.labelMatches config event ->
  state <> "opened" ->
  TriggerResult.shouldTrigger (validateTrigger config event) = false
  /\ TriggerResult.triggerType (validateTrigger config event) = None.
Proof.
  intros Hstate Hbot Ha Hl Hclosed.
  destruct (validateTrigger_resource config event state Hstate Hbot) as [Ht Hs].
  rewrite Hs, Ht. clear Hs Ht.
  rewrite <- hasAssigneeTrigger_spec in Ha. rewrite <- hasLabelTrigger_spec in Hl.
  apply not_true_is_false in Ha, Hl. apply String.eqb_neq in Hclosed.
  unfold Spec.firstMatch. rewrite Ha, Hl, Hclosed. split; reflexivity.
Qed.

Lemma phrase_only_checked_when_opened_witness :
  (containsTriggerPhrase Sample.config (Spec.resourceTitle Sample.closedIssuePhrase) = true
   /\ TriggerResult.shouldTrigger (validateTrigger Sample.config Sample.closedIssuePhrase)
      = false)
  /\ (containsTriggerPhrase Sample.config
        (Spec.resourceTitle Sample.mergedMergeRequestPhrase) = true
      /\ TriggerResult.shouldTrigger
           (validateTrigger Sample.config Sample.mergedMergeRequestPhrase) = false).
Proof.
  split; (split; [vm_compute; reflexivity|]).
  - refine (proj1 (phrase_only_checked_when_opened Sample.config Sample.closedIssuePhrase
                     "closed" eq_refl not_isBot_sample _ _ _)).
    + rewrite <- hasAssigneeTrigger_spec; vm_compute; discriminate.
    + rewrite <- hasLabelTrigger_spec; vm_compute; discriminate.
    + discriminate.
  - refine (proj1 (phrase_only_checked_when_opened Sample.config
                     Sample.mergedMergeRequestPhrase
                     "merged" eq_refl not_isBot_sample _ _ _)).
    + rewrite <- hasAssigneeTrigger_spec; vm_compute; discriminate.
    + rewrite <- hasLabelTrigger_spec; vm_compute; discriminate.
    + discriminate.
Defined.

(** The end-to-end scenario of the specification: an opened issue titled
    [@claude please fix the bug], nothing configured to match. *)
Example opened_issue_with_phrase :
  validateTrigger Sample.config Sample.issuePhraseOnly
  = {| TriggerResult.shouldTrigger := true;
       TriggerResult.triggerType := Some comment;
       TriggerResult.resourceType := Some issue;
       TriggerResult.resourceId := Some 12%Z;
       TriggerResult.projectId := Some 42%Z;
       TriggerResult.triggeredBy := Some Sample.alice;
       TriggerResult.triggerComment := None |}.
Proof. vm_compute. reflexivity. Qed.

End TriggerClassifier.

(** ** The pipeline trigger *)

Module PipelineTrigger.
Import Pipeline.

Section AnyRuntime.

Variable JSON_parse : string -> Completion JSON.

(** [validatePipelineTrigger] never throws. *)
Lemma validatePipelineTrigger_returns (triggerData : string) :
  exists result, validatePipelineTrigger JSON_parse triggerData = Return result.
Proof.
  unfold validatePipelineTrigger, tryCatch.
  match goal with |- context [match ?body with _ => _ end] => destruct body end; eauto.
Qed.

(** Reading a property of a parsed value other than [null] does not throw. *)
Lemma getMember_not_null (data : JSON) (key : string) :
  data <> JNull -> exists v, JS.getMember data key = Return v.
Proof. destruct data; intros H; try contradiction; cbn; eauto. Qed.

(** C3: when the input does not parse as JSON ([JSON.parse] throws),
    [validatePipelineTrigger] returns normally, and the result has
    [shouldTrigger = false] and every other field [null]. *)
Theorem malformed_trigger_data_degrades (triggerData : string) (e : JSError) :
  JSON_parse triggerData = Throw e ->
  validatePipelineTrigger JSON_parse triggerData
  = Return {| RawTriggerResult.shouldTrigger := false;
              RawTriggerResult.triggerType := value JNull;
              RawTriggerResult.resourceType := value JNull;
              RawTriggerResult.resourceId := value JNull;
              RawTriggerResult.projectId := value JNull;
              RawTriggerResult.triggeredBy := value JNull |}.
Proof.
  intros H. unfold validatePipelineTrigger. rewrite H. reflexivity.
Qed.

(** C9: when the input parses to a value other than [null],
    [validatePipelineTrigger] returns a result with [shouldTrigger = true]
    whose [resourceType], [resourceId] and [projectId] are the members of
    the parsed value as they are ([undefined] when absent) and whose
    [triggerType] is the member when it is truthy and ['direct'] otherwise,
    in particular when it is absent.  For the empty object all three
    resource fields are [undefined]. *)
Theorem parsed_trigger_data_always_triggers (triggerData : string) (data : JSON) :
  JSON_parse triggerData = Return data ->
  data <> JNull ->
  exists result,
    validatePipelineTrigger JSON_parse triggerData = Return result
    /\ RawTriggerResult.shouldTrigger result = true
    /\ JS.getMember data "resourceType" = Return (RawTriggerResult.resourceType result)
    /\ JS.getMember data "resourceId" = Return (RawTriggerResult.resourceId result)
    /\ JS.getMember data "projectId" = Return (RawTriggerResult.projectId result)
    /\ (exists given,
          JS.getMember data "triggerType" = Return given
          /\ RawTriggerResult.triggerType result
             = if JS.truthy given then given else value (JString "direct"))
    /\ (JS.getMember data "triggerType" = Return undefined ->
        RawTriggerResult.triggerType result = value (JString "direct"))
    /\ (data = JObject [] ->
        RawTriggerResult.resourceType result = undefined
        /\ RawTriggerResult.resourceId result = undefined
        /\ RawTriggerResult.projectId result = undefined).
Proof.
  intros Hparse Hnull. unfold validatePipelineTrigger. rewrite Hparse.
  destruct (getMember_not_null data "triggerType" Hnull) as [tt Htt].
  destruct (getMember_not_null data "resourceType" Hnull) as [rt Hrt].
  destruct (getMember_not_null data "resourceId" Hnull) as [rid Hrid].
  destruct (getMember_not_null data "projectId" Hnull) as [pid Hpid].
  destruct (getMember_not_null data "triggeredBy" Hnull) as [tb Htb].
  cbn [bind]. rewrite Htt, Hrt, Hrid, Hpid, Htb. cbn [bind tryCatch].
  eexists. split; [reflexivity|]. cbn.
  repeat split.
  - exists tt. split; reflexivity.
  - intros [= ->]. reflexivity.
  - subst data. cbn in Hrt. congruence.
  - subst data. cbn in Hrid. congruence.
  - subst data. cbn in Hpid. congruence.
Qed.

(** The [null] blob is the one parsed value that does not trigger: reading
    its first property throws and the handler takes over. *)
Lemma null_trigger_data_degrades (triggerData : string) :
  JSON_parse triggerData = Return JNull ->
  validatePipelineTrigger JSON_parse triggerData = Return RawTriggerResult.allNull.
Proof.
  intros H. unfold validatePipelineTrigger. rewrite H. reflexivity.
Qed.

End AnyRuntime.

Lemma malformed_trigger_data_degrades_witness :
  JSONReader.parse "resourceType=issue" = Throw SyntaxError
  /\ validatePipelineTrigger JSONReader.parse "resourceType=issue"
     = Return RawTriggerResult.allNull.
Proof.
  split; [vm_compute; reflexivity|].
  apply (malformed_trigger_data_degrades JSONReader.parse "resourceType=issue" SyntaxError).
  vm_compute; reflexivity.
Defined.

Lemma parsed_trigger_data_always_triggers_witness :
  JSONReader.parse "{}" = Return (JObject [])
  /\ exists result,
       validatePipelineTrigger JSONReader.parse "{}" = Return result
       /\ RawTriggerResult.shouldTrigger result = true
       /\ RawTriggerResult.triggerType result = value (JString "direct")
       /\ RawTriggerResult.resourceType result = undefined
       /\ RawTriggerResult.resourceId result = undefined
       /\ RawTriggerResult.projectId result = undefined.
Proof.
  assert (P : JSONReader.parse "{}" = Return (JObject [])) by (vm_compute; reflexivity).
  split; [exact P|].
  destruct (parsed_trigger_data_always_triggers JSONReader.parse "{}" (JObject []) P)
    as (result & Hrun & Hfire & _ & _ & _ & _ & Hdirect & Hundef).
  - discriminate.
  - destruct (Hundef eq_refl) as (Hrt & Hrid & Hpid).
    exists result. repeat (split; [assumption|]).
    split; [apply Hdirect; reflexivity|].
    repeat (split; [assumption|]). assumption.
Defined.

(** A blob with a resource and no trigger type. *)
Example pipeline_issue_blob :
  validatePipelineTrigger JSONReader.parse
    ("{" ++ JSONReader.member "resourceType" (JSONReader.quoted "issue") ++ ", "
         ++ JSONReader.member "resourceId" "12" ++ "}")
  = Return {| RawTriggerResult.shouldTrigger := true;
              RawTriggerResult.triggerType := value (JString "direct");
              RawTriggerResult.resourceType := value (JString "issue");
              RawTriggerResult.resourceId := value (JNumber 12);
              RawTriggerResult.projectId := undefined;
              RawTriggerResult.triggeredBy := value JNull |}.
Proof. vm_compute. reflexivity. Qed.

Example pipeline_null_blob :
  validatePipelineTrigger JSONReader.parse "null" = Return RawTriggerResult.allNull.
Proof. vm_compute. reflexivity. Qed.

End PipelineTrigger.

(** ** Tool lists *)

Module ToolLists.
Import JSString CreatePrompt.

(** C4: the deny string is the comma-joined list made of the base
    deny-list [WebSearch, WebFetch] without the tools the caller allowed,
    followed by the caller's disallowed tools.  With
    [allowedTools = [WebFetch]] the resolved list is [WebSearch] followed
    by the caller's disallowed tools: [WebSearch] stays, the base entry
    [WebFetch] is gone, and with no caller-disallowed tools the string is
    [WebSearch]. *)
Theorem buildDisallowedToolsString_resolves :
  (forall customDisallowedTools allowedTools,
     buildDisallowedToolsString customDisallowedTools allowedTools
     = join "," (Spec.resolvedDenyList customDisallowedTools allowedTools))
  /\ (forall customDisallowedTools,
        Spec.resolvedDenyList customDisallowedTools (Some ["WebFetch"])
        = "WebSearch" :: Spec.orNone customDisallowedTools)
  /\ buildDisallowedToolsString None (Some ["WebFetch"]) = "WebSearch"
  /\ buildDisallowedToolsString None None = "WebSearch,WebFetch".
Proof.
  split; [|split; [|split]]; try reflexivity.
  intros custom allowed.
  unfold buildDisallowedToolsString, Spec.resolvedDenyList, DISALLOWED_TOOLS.
  assert (Hfilter :
    match nonEmptyArray allowed with
    | Some allowed' =>
        filter (fun tool => negb (arrayIncludes allowed' tool)) ["WebSearch"; "WebFetch"]
    | None => ["WebSearch"; "WebFetch"]
    end
    = filter (fun tool => negb (arrayIncludes (Spec.orNone allowed) tool))
        ["WebSearch"; "WebFetch"]).
  { destruct allowed as [[|a l]|]; reflexivity. }
  rewrite Hfilter. clear Hfilter.
  cbn [filter].
  destruct (negb (arrayIncludes (Spec.orNone allowed) "WebSearch"));
    destruct (negb (arrayIncludes (Spec.orNone allowed) "WebFetch"));
    destruct custom as [[|c cs]|]; reflexivity.
Qed.

End ToolLists.

(** ** The merge-request file fetch *)

Module FileFetch.
Import JSString JSStringFacts RegExp RegExpFacts GitLabDataFetcher.

(** Membership in a literal list of words, and back. *)
Ltac pick_word :=
  match goal with
  | H : In _ _ |- _ =>
      cbn in H;
      repeat (destruct H as [<- | H]; [cbn; tauto|]); contradiction
  end.

(** The disjunct of a chain of patterns that a given match belongs to. *)
Ltac choose_pattern H :=
  first [ left; eexists; split; [ | exact H ]; cbn; tauto
        | right; choose_pattern H ].

(** [isRelevantFile] rejects the excluded paths of the specification and
    no others. *)
Lemma isRelevantFile_spec (path : string) :
  isRelevantFile path = true <-> ~ Spec.excludedPath path.
Proof.
  unfold isRelevantFile. rewrite negb_true_iff, <- not_true_iff_false.
  apply not_iff_compat.
  unfold excludePatterns. cbn [existsb].
  rewrite !orb_true_iff, test_words_suffix_ignoreCase,
    !test_words_suffix, !test_words_infix.
  unfold Spec.excludedPath. split.
  - intros H.
    repeat (destruct H as [H | H]); try discriminate;
      destruct H as (w & Hw & H).
    + left. exists w. split; [pick_word | exact H].
    + right; left. exists w. split; [pick_word | exact H].
    + right; left. exists w. split; [pick_word | exact H].
    + right; left. exists w. split; [pick_word | exact H].
    + right; left. exists w. split; [pick_word | exact H].
    + right; left. exists w. split; [pick_word | exact H].
    + right; left. exists w. split; [pick_word | exact H].
    + right; right. exists w. split; [pick_word | exact H].
    + right; right. exists w. split; [pick_word | exact H].
    + right; right. exists w. split; [pick_word | exact H].
    + right; right. exists w. split; [pick_word | exact H].
  - intros [(w & Hw & H) | [(w & Hw & H) | (w & Hw & H)]].
    + left. exists w. split; [exact Hw | exact H].
    + cbn in Hw.
      repeat (destruct Hw as [<- | Hw]; [choose_pattern H|]). contradiction.
    + cbn in Hw.
      repeat (destruct Hw as [<- | Hw]; [choose_pattern H|]). contradiction.
Qed.

Lemma relevantDiffs_length (diffs : list GitLabDiff.t) :
  List.length (relevantDiffs diffs) <= 20.
Proof. unfold relevantDiffs. apply firstn_le_length. Qed.

Lemma relevantDiffs_In (diffs : list GitLabDiff.t) (diff : GitLabDiff.t) :
  In diff (relevantDiffs diffs) ->
  In diff diffs
  /\ GitLabDiff.deleted_file diff = false
  /\ isRelevantFile (GitLabDiff.new_path diff) = true.
Proof.
  unfold relevantDiffs. intros H.
  assert (Hin : In diff (filter (fun d => negb (GitLabDiff.deleted_file d)
                                          && isRelevantFile (GitLabDiff.new_path d))
                                diffs)).
  { rewrite <- (firstn_skipn maxFiles). apply in_or_app. now left. }
  apply filter_In in Hin as [Hin Hkeep].
  apply andb_true_iff in Hkeep as [Hdel Hrel].
  apply negb_true_iff in Hdel. auto.
Qed.

Section AnyClient.

Variable getFile : Z -> string -> string -> Completion GitLabFile.t.
Variable decodeBase64 : string -> string.

Local Abbreviation fetchOne := (fetchOne getFile decodeBase64).
Local Abbreviation fetchModifiedFiles := (fetchModifiedFiles getFile decodeBase64).

(** The loop pushes at most one file per diff. *)
Lemma fetch_loop_length (projectId : Z) (branch : string)
    (todo : list GitLabDiff.t) (files : list GitLabFile.t) :
  List.length (fold_left (fetchOne projectId branch) todo files)
  <= List.length files + List.length todo.
Proof.
  revert files; induction todo as [|diff todo IH]; intros files; cbn [fold_left List.length].
  - lia.
  - etransitivity; [apply IH|]. unfold GitLabDataFetcher.fetchOne.
    destruct (getFile projectId (GitLabDiff.new_path diff) branch).
    + rewrite length_app. cbn. lia.
    + lia.
Qed.

(** Every file the loop adds was served for the path of one of the diffs. *)
Lemma fetch_loop_In (projectId : Z) (branch : string)
    (todo : list GitLabDiff.t) (files : list GitLabFile.t) (file : GitLabFile.t) :
  In file (fold_left (fetchOne projectId branch) todo files) ->
  In file files
  \/ exists diff raw,
       In diff todo
       /\ getFile projectId (GitLabDiff.new_path diff) branch = Return raw
       /\ file = decodeContent decodeBase64 raw.
Proof.
  revert files; induction todo as [|diff todo IH]; intros files; cbn [fold_left].
  - now left.
  - intros H. apply IH in H as [H | (d & raw & Hd & Hget & ->)].
    + unfold GitLabDataFetcher.fetchOne in H.
      destruct (getFile projectId (GitLabDiff.new_path diff) branch) as [raw|] eqn:Hget.
      * apply in_app_or in H as [H | [<- | []]]; [now left|].
        right. exists diff, raw. cbn. auto.
      * now left.
    + right. exists d, raw. cbn. auto.
Qed.

(** C5, as amended: the fetched file list has at most 20 entries, and each
    entry was fetched for the path of a diff that is not marked deleted
    and that matches no exclusion pattern: no binary extension in any
    letter case, and, in exact letter case, none of the listed endings
    ([package-lock.json], [yarn.lock], [pnpm-lock.yaml], [Gemfile.lock],
    [composer.lock], [.min.js], [.min.css]) and none of the listed
    segments ([node_modules/], [.git/], [build/], [dist/]). *)
Theorem fetched_files_bounded_and_relevant
    (projectId : Z) (diffs : list GitLabDiff.t) (branch : string) :
  List.length (fetchModifiedFiles projectId diffs branch) <= 20
  /\ forall file,
       In file (fetchModifiedFiles projectId diffs branch) ->
       exists diff raw,
         In diff diffs
         /\ getFile projectId (GitLabDiff.new_path diff) branch = Return raw
         /\ file = decodeContent decodeBase64 raw
         /\ GitLabDiff.deleted_file diff = false
         /\ ~ Spec.excludedPath (GitLabDiff.new_path diff)
         /\ ~ Spec.endsIn (GitLabDiff.new_path diff) "package-lock.json"
         /\ ~ Spec.endsIn (GitLabDiff.new_path diff) "yarn.lock"
         /\ ~ Spec.containsText (GitLabDiff.new_path diff) "node_modules/".
Proof.
  unfold GitLabDataFetcher.fetchModifiedFiles. split.
  - etransitivity; [apply fetch_loop_length|].
    cbn [List.length]. apply relevantDiffs_length.
  - intros file H.
    apply fetch_loop_In in H as [[] | (diff & raw & Hd & Hget & ->)].
    apply relevantDiffs_In in Hd as (Hin & Hdel & Hrel).
    apply isRelevantFile_spec in Hrel.
    exists diff, raw.
    split; [exact Hin|]. split; [exact Hget|]. split; [reflexivity|].
    split; [exact Hdel|]. split; [exact Hrel|].
    split; [|split]; intros H; apply Hrel; unfold Spec.excludedPath.
    + right; left. exists "package-lock.json". split; [cbn; tauto | exact H].
    + right; left. exists "yarn.lock". split; [cbn; tauto | exact H].
    + right; right. exists "node_modules/". split; [cbn; tauto | exact H].
Qed.

End AnyClient.

Lemma fetched_files_bounded_and_relevant_witness :
  List.map GitLabFile.file_path
    (fetchModifiedFiles Sample.getFile Sample.decodeBase64 42 Sample.changes "main")
  = ["src/app.ts"; "README.md"]
  /\ List.length (fetchModifiedFiles Sample.getFile Sample.decodeBase64 42 Sample.changes "main")
     <= 20
  /\ exists diff raw,
       In diff Sample.changes
       /\ Sample.getFile 42 (GitLabDiff.new_path diff) "main" = Return raw
       /\ GitLabFile.mk "README.md" "README.md" "main" (Some "hello")
          = decodeContent Sample.decodeBase64 raw
       /\ GitLabDiff.deleted_file diff = false
       /\ ~ Spec.excludedPath (GitLabDiff.new_path diff).
Proof.
  split; [vm_compute; reflexivity|].
  destruct (fetched_files_bounded_and_relevant Sample.getFile Sample.decodeBase64
              42 Sample.changes "main") as [Hlen Hall].
  split; [exact Hlen|].
  destruct (Hall (GitLabFile.mk "README.md" "README.md" "main" (Some "hello")))
    as (diff & raw & H1 & H2 & H3 & H4 & H5 & _).
  - vm_compute. tauto.
  - exists diff, raw. auto.
Defined.

(** The cap: of 25 relevant changes the first 20 are fetched. *)
Example fetch_stops_at_cap :
  List.length (fetchModifiedFiles Sample.getFile Sample.decodeBase64 42
            (repeat (Sample.diffOf "src/app.ts" false) 25) "main") = 20.
Proof. vm_compute. reflexivity. Qed.

(** C5, as stated, fails: a lock file that is not one of the listed ones
    ends in [.lock] and is fetched, and so is a path that matches a
    listed segment in another letter case. *)
Lemma unlisted_lockfile_counterexample :
  List.map GitLabFile.file_path
    (fetchModifiedFiles Sample.getFile Sample.decodeBase64 42
       [Sample.diffOf "Cargo.lock" false;
        Sample.diffOf "NODE_MODULES/left-pad/index.js" false] "main")
  = ["Cargo.lock"; "NODE_MODULES/left-pad/index.js"]
  /\ Spec.endsIn "Cargo.lock" ".lock"
  /\ containsIgnoreCase "NODE_MODULES/left-pad/index.js" "node_modules/".
Proof.
  split; [vm_compute; reflexivity | split].
  - now exists "Cargo".
  - exists "", "NODE_MODULES/", "left-pad/index.js".
    split; [reflexivity | apply eqIgnoreCase_toLowerCase; reflexivity].
Qed.

End FileFetch.

(** * Further properties *)

(** ** Invariants of the classifier *)

Module ClassifierInvariants.
Import JSString JSStringFacts GitLabTriggerValidator BotFilter TriggerClassifier.

(** Case analysis along every test of the validators. *)
Ltac validator_cases :=
  unfold validateTrigger, validateNoteEvent, validateIssueEvent,
    validateMergeRequestEvent, TriggerResult.fire;
  repeat match goal with
         | |- context [if ?b then _ else _] => destruct b eqn:?
         | |- context [match ?x with _ => _ end] => destruct x eqn:?
         end.

(** X1: whatever the event and the outcome, the result names the project
    of the event and the acting user. *)
Theorem result_keeps_project_and_user
    (config : GitLabActionConfig.t) (event : GitLabWebhookEvent.t) :
  TriggerResult.projectId (validateTrigger config event)
  = Some (GitLabProject.id (GitLabWebhookEvent.project event))
  /\ TriggerResult.triggeredBy (validateTrigger config event)
     = Some (GitLabWebhookEvent.user event).
Proof. validator_cases; split; reflexivity. Qed.

(** X2: the flag and the trigger type agree, and a webhook event is never
    classified as a direct trigger. *)
Theorem flag_agrees_with_type
    (config : GitLabActionConfig.t) (event : GitLabWebhookEvent.t) :
  TriggerResult.shouldTrigger (validateTrigger config event)
  = isSome (TriggerResult.triggerType (validateTrigger config event))
  /\ TriggerResult.triggerType (validateTrigger config event) <> Some direct.
Proof. validator_cases; split; (reflexivity || discriminate). Qed.

(** X3: a result that does not trigger is the untouched initial result:
    no trigger type, no resource, no trigger comment. *)
Theorem no_trigger_leaves_result_untouched
    (config : GitLabActionConfig.t) (event : GitLabWebhookEvent.t) :
  TriggerResult.shouldTrigger (validateTrigger config event) = false ->
  validateTrigger config event = Behaviour.untouched event.
Proof.
  unfold Behaviour.untouched. validator_cases; cbn; intros H;
    (reflexivity || discriminate).
Qed.

Lemma no_trigger_leaves_result_untouched_witness :
  validateTrigger Sample.config Sample.closedIssuePhrase
  = Behaviour.untouched Sample.closedIssuePhrase.
Proof.
  apply (no_trigger_leaves_result_untouched Sample.config Sample.closedIssuePhrase).
  vm_compute; reflexivity.
Defined.

Lemma target_of_trigger
    (config : GitLabActionConfig.t) (event : GitLabWebhookEvent.t) :
  TriggerResult.shouldTrigger (validateTrigger config event) = true ->
  Behaviour.target (validateTrigger config event) = Behaviour.targetResource event.
Proof.
  unfold Behaviour.targetResource.
  validator_cases; cbn; intros H; try discriminate; reflexivity.
Qed.

Lemma type_of_trigger
    (config : GitLabActionConfig.t) (event : GitLabWebhookEvent.t) :
  TriggerResult.shouldTrigger (validateTrigger config event) = true ->
  exists type, TriggerResult.triggerType (validateTrigger config event) = Some type
               /\ type <> direct.
Proof.
  validator_cases; cbn; intros H; try discriminate;
    eexists; (split; [reflexivity | discriminate]).
Qed.

(** X4: a triggering result points at the resource by its project-scoped
    [iid]: the issue or merge request of the event, for a note the
    attached parent that [noteable_type] names; the two resource fields
    are set together; and only a note carries a trigger comment. *)
Theorem trigger_names_resource_by_iid
    (config : GitLabActionConfig.t) (event : GitLabWebhookEvent.t) :
  TriggerResult.shouldTrigger (validateTrigger config event) = true ->
  Behaviour.target (validateTrigger config event) = Behaviour.targetResource event
  /\ (isSome (TriggerResult.resourceType (validateTrigger config event))
      = isSome (TriggerResult.resourceId (validateTrigger config event)))
  /\ (isSome (TriggerResult.triggerComment (validateTrigger config event)) = true
      <-> exists note i mr, GitLabWebhookEvent.object event = GitLabNoteEvent note i mr).
Proof.
  intros Hfire. split; [now apply target_of_trigger|]. revert Hfire.
  validator_cases; cbn; intros H; try discriminate;
    (split; [reflexivity|]);
    (split; [intros E; try discriminate; eauto | intros (n & i & m & E); congruence]).
Qed.

Lemma trigger_names_resource_by_iid_witness :
  Behaviour.target (validateTrigger Sample.config Sample.issueAllThree)
  = Some (issue, 12%Z)
  /\ Behaviour.target (validateTrigger Sample.config Sample.issueAllThree)
     = Behaviour.targetResource Sample.issueAllThree.
Proof.
  split; [vm_compute; reflexivity|].
  apply (trigger_names_resource_by_iid Sample.config Sample.issueAllThree).
  vm_compute; reflexivity.
Defined.

Lemma isBotUser_false (user : GitLabUser.t) :
  isBotUser user = false <-> ~ Spec.isBot user.
Proof.
  rewrite <- isBotUser_spec. split.
  - intros H; rewrite H; discriminate.
  - apply not_true_is_false.
Qed.

Lemma firstMatch_isSome (a l opened p : bool) :
  isSome (Spec.firstMatch a l opened p) = true
  <-> a = true \/ l = true \/ (opened = true /\ p = true).
Proof.
  destruct a, l, opened, p; cbn; intuition discriminate.
Qed.

(** X5: the complete decision, for an ASCII trigger phrase and ASCII
    texts (note body, title, description).  An event triggers exactly
    when its user is not a bot and its content asks for it: a non-system
    note with the phrase; an issue or merge request with the assignee,
    with the label, or opened with the phrase in its title or
    description.  Push and tag events never trigger. *)
Theorem triggers_exactly_when
    (config : GitLabActionConfig.t) (event : GitLabWebhookEvent.t) :
  Text.isASCII (GitLabActionConfig.triggerPhrase config) = true ->
  (forall text, In text (Text.phraseTexts event) -> Text.isASCII text = true) ->
  TriggerResult.shouldTrigger (validateTrigger config event) = true
  <-> ~ Spec.isBot (GitLabWebhookEvent.user event)
      /\ Behaviour.contentTriggers config event.
Proof.
  intros _ _.
  destruct (isBotUser (GitLabWebhookEvent.user event)) eqn:Hbot.
  - assert (Hb := Hbot). apply isBotUser_spec in Hb.
    unfold validateTrigger. rewrite Hbot. cbn. split; [discriminate | tauto].
  - apply isBotUser_false in Hbot.
    unfold Behaviour.contentTriggers.
    destruct (GitLabWebhookEvent.object event) as [note i mr | i | mr | |] eqn:Hobj.
    + destruct (validateTrigger_note config event note i mr Hobj
                  (proj2 (isBotUser_false _) Hbot)) as (r & -> & Hr & _).
      rewrite <- containsTriggerPhrase_spec.
      unfold validateNoteEvent.
      destruct (NoteAttributes.system note);
        [rewrite Hr; intuition discriminate|].
      destruct (containsTriggerPhrase config (NoteAttributes.note note)).
      * destruct (String.eqb (NoteAttributes.noteable_type note) "Issue"), i;
          destruct (String.eqb (NoteAttributes.noteable_type note) "MergeRequest"), mr;
          cbn; tauto.
      * rewrite Hr. intuition discriminate.
    + assert (Hstate : Spec.resourceState event = Some (GitLabIssue.state i))
        by (unfold Spec.resourceState; now rewrite Hobj).
      destruct (validateTrigger_resource config event _ Hstate Hbot) as [_ ->].
      rewrite firstMatch_isSome, hasAssigneeTrigger_spec, hasLabelTrigger_spec,
        orb_true_iff, !containsTriggerPhrase_spec, String.eqb_eq, Hstate.
      split; [intros H; split; [exact Hbot|] | intros [_ H]];
        intuition (subst; congruence).
    + assert (Hstate : Spec.resourceState event = Some (GitLabMergeRequest.state mr))
        by (unfold Spec.resourceState; now rewrite Hobj).
      destruct (validateTrigger_resource config event _ Hstate Hbot) as [_ ->].
      rewrite firstMatch_isSome, hasAssigneeTrigger_spec, hasLabelTrigger_spec,
        orb_true_iff, !containsTriggerPhrase_spec, String.eqb_eq, Hstate.
      split; [intros H; split; [exact Hbot|] | intros [_ H]];
        intuition (subst; congruence).
    + unfold validateTrigger. rewrite (proj2 (isBotUser_false _) Hbot), Hobj.
      cbn. intuition discriminate.
    + unfold validateTrigger. rewrite (proj2 (isBotUser_false _) Hbot), Hobj.
      cbn. intuition discriminate.
Qed.

Lemma triggers_exactly_when_witness :
  (TriggerResult.shouldTrigger (validateTrigger Sample.config Sample.issuePhraseOnly) = true
   /\ ~ Spec.isBot (GitLabWebhookEvent.user Sample.issuePhraseOnly)
   /\ Behaviour.contentTriggers Sample.config Sample.issuePhraseOnly)
  /\ (TriggerResult.shouldTrigger (validateTrigger Sample.config Sample.systemNote) = false
      /\ ~ Behaviour.contentTriggers Sample.config Sample.systemNote).
Proof.
  assert (A1 : forall text, In text (Text.phraseTexts Sample.issuePhraseOnly) ->
                            Text.isASCII text = true)
    by (intros text [<- | [<- | []]]; reflexivity).
  assert (A2 : forall text, In text (Text.phraseTexts Sample.systemNote) ->
                            Text.isASCII text = true)
    by (intros text [<- | []]; reflexivity).
  assert (F1 : TriggerResult.shouldTrigger
                 (validateTrigger Sample.config Sample.issuePhraseOnly) = true)
    by (vm_compute; reflexivity).
  assert (F2 : TriggerResult.shouldTrigger
                 (validateTrigger Sample.config Sample.systemNote) = false)
    by (vm_compute; reflexivity).
  split.
  - split; [exact F1|].
    exact (proj1 (triggers_exactly_when Sample.config Sample.issuePhraseOnly
                    eq_refl A1) F1).
  - split; [exact F2|]. intros H.
    assert (F : TriggerResult.shouldTrigger
                  (validateTrigger Sample.config Sample.systemNote) = true).
    { apply (triggers_exactly_when Sample.config Sample.systemNote eq_refl A2).
      split; [exact not_isBot_sample | exact H]. }
    rewrite F2 in F. discriminate F.
Defined.

End ClassifierInvariants.

(** ** The phrase test *)

Module PhraseTest.
Import JSString JSStringFacts GitLabTriggerValidator TriggerClassifier.

Lemma eqIgnoreCase_truthy (s t : string) :
  eqIgnoreCase s t -> truthy s = truthy t.
Proof. destruct 1; reflexivity. Qed.

Lemma containsIgnoreCase_embed (pre text post lit : string) :
  containsIgnoreCase text lit -> containsIgnoreCase (pre ++ text ++ post) lit.
Proof.
  intros (a & occ & b & -> & H).
  exists (pre ++ a), occ, (b ++ post). split; [|exact H].
  now rewrite !append_assoc.
Qed.

Lemma append_not_empty (pre text post : string) :
  text <> "" -> pre ++ text ++ post <> "".
Proof.
  destruct pre; [|discriminate]. destruct text; [congruence | discriminate].
Qed.

(** X6: the phrase test ignores letter case on both sides: changing the
    case of letters in the text or in the configured phrase does not
    change its verdict. *)
Theorem phrase_test_ignores_case
    (config config' : GitLabActionConfig.t) (text text' : string) :
  eqIgnoreCase text text' ->
  eqIgnoreCase (GitLabActionConfig.triggerPhrase config)
               (GitLabActionConfig.triggerPhrase config') ->
  containsTriggerPhrase config text = containsTriggerPhrase config' text'.
Proof.
  intros Ht Hp. unfold containsTriggerPhrase.
  rewrite (eqIgnoreCase_truthy _ _ Ht).
  apply eqIgnoreCase_toLowerCase in Ht, Hp. now rewrite Ht, Hp.
Qed.

Lemma phrase_test_ignores_case_witness :
  containsTriggerPhrase Sample.config "Please HELP @Claude"
  = containsTriggerPhrase
      (GitLabActionConfig.mk "@CLAUDE" None None None None) "please help @claude".
Proof.
  apply (phrase_test_ignores_case Sample.config
           (GitLabActionConfig.mk "@CLAUDE" None None None None));
    apply eqIgnoreCase_toLowerCase; reflexivity.
Defined.

(** X7: on ASCII text the phrase test is plain containment, so text
    around a match never undoes it: for an ASCII phrase, an ASCII text
    that passes still passes when it is embedded in a longer ASCII text,
    wherever the match sits. *)
Theorem phrase_test_survives_embedding
    (config : GitLabActionConfig.t) (pre text post : string) :
  Text.isASCII (GitLabActionConfig.triggerPhrase config) = true ->
  Text.isASCII pre = true ->
  Text.isASCII text = true ->
  Text.isASCII post = true ->
  containsTriggerPhrase config text = true ->
  containsTriggerPhrase config (pre ++ text ++ post) = true.
Proof.
  intros _ _ _ _.
  rewrite !containsTriggerPhrase_spec. intros [Hne [H | H]].
  - split; [now apply append_not_empty | left; now apply containsIgnoreCase_embed].
  - split; [now apply append_not_empty | right; now apply containsIgnoreCase_embed].
Qed.

Lemma phrase_test_survives_embedding_witness :
  containsTriggerPhrase Sample.config ("see " ++ "@claudette" ++ " for details") = true.
Proof.
  apply (phrase_test_survives_embedding Sample.config "see " "@claudette" " for details");
    vm_compute; reflexivity.
Defined.

Lemma includes_empty (s : string) : includes s "" = true.
Proof. apply includes_spec. now exists "", s. Qed.

(** X8: the two degenerate inputs.  An empty text never passes, whatever
    the phrase; with an empty configured phrase every non-empty text
    passes. *)
Theorem phrase_test_on_empty_inputs (config : GitLabActionConfig.t) :
  containsTriggerPhrase config "" = false
  /\ (GitLabActionConfig.triggerPhrase config = "" ->
      forall text, containsTriggerPhrase config text = truthy text).
Proof.
  split; [reflexivity|].
  intros Hp text. unfold containsTriggerPhrase. rewrite Hp.
  destruct (truthy text); [|reflexivity].
  cbn [negb toLowerCase map]. now rewrite includes_empty.
Qed.

Lemma phrase_test_on_empty_inputs_witness :
  containsTriggerPhrase (GitLabActionConfig.mk "" None None None None) "any comment"
  = true.
Proof.
  exact (proj2 (phrase_test_on_empty_inputs (GitLabActionConfig.mk "" None None None None))
           eq_refl "any comment").
Defined.

Lemma removeFirst_absent (s : string) :
  includes s "@" = false -> removeFirst "@" s = s.
Proof.
  induction s as [|a s IH]; [reflexivity|].
  cbn [includes startsWith removeFirst].
  destruct (Ascii.eqb a "@") eqn:E.
  - apply Ascii.eqb_eq in E. subst a. cbn. discriminate.
  - rewrite Ascii.eqb_sym in E. rewrite E. cbn [andb orb].
    intros H. now rewrite IH.
Qed.

Lemma includes_drop_first (s p : string) (c : ascii) :
  includes s (String c p) = true -> includes s p = true.
Proof.
  rewrite !includes_spec. intros (pre & post & ->).
  exists (pre ++ String c ""), post. rewrite append_assoc. reflexivity.
Qed.

Lemma includes_toLowerCase_at (s : string) :
  includes (toLowerCase s) "@" = includes s "@".
Proof.
  induction s as [|a s IH]; [reflexivity|].
  cbn [toLowerCase map includes startsWith].
  rewrite (Ascii.eqb_sym "@" (lowerChar a)), eqb_lowerChar_at, (Ascii.eqb_sym a "@").
  fold (toLowerCase s). now rewrite IH.
Qed.

(** X9: for a phrase that starts with [@], or that holds no [@] at all,
    the mention-style test adds nothing: the phrase test is the
    case-insensitive containment of the phrase itself in a non-empty
    text. *)
Theorem mention_test_is_redundant (config : GitLabActionConfig.t) (text : string) :
  startsWith (GitLabActionConfig.triggerPhrase config) "@" = true
  \/ includes (GitLabActionConfig.triggerPhrase config) "@" = false ->
  containsTriggerPhrase config text
  = truthy text
    && includes (toLowerCase text)
                (toLowerCase (GitLabActionConfig.triggerPhrase config)).
Proof.
  intros H. unfold containsTriggerPhrase.
  destruct (truthy text); [|reflexivity]. cbn [negb andb].
  set (phrase := GitLabActionConfig.triggerPhrase config) in *.
  destruct H as [H | H].
  - destruct phrase as [|c rest]; [discriminate|].
    cbn [startsWith] in H. rewrite andb_true_r in H. apply Ascii.eqb_eq in H. subst c.
    cbn [toLowerCase map removeFirst]. change (lowerChar "@") with "@"%char.
    rewrite Ascii.eqb_refl. apply orb_diag.
  - rewrite <- includes_toLowerCase_at in H. rewrite (removeFirst_absent _ H).
    destruct (includes (toLowerCase text) (toLowerCase phrase)) eqn:E;
      [reflexivity|].
    cbn [orb].
    destruct (includes (toLowerCase text) ("@" ++ toLowerCase phrase)) eqn:E';
      [|reflexivity].
    apply includes_drop_first in E'. congruence.
Qed.

Lemma mention_test_is_redundant_witness :
  containsTriggerPhrase Sample.config "claude, please fix this"
  = truthy "claude, please fix this"
    && includes (toLowerCase "claude, please fix this") (toLowerCase "@claude").
Proof.
  apply (mention_test_is_redundant Sample.config "claude, please fix this").
  left. reflexivity.
Defined.

End PhraseTest.

(** ** The pipeline trigger, completed *)

Module PipelineDecision.
Import Pipeline PipelineTrigger.

Lemma or_truthy (given fallback : JSValue) :
  JS.truthy fallback = true -> JS.truthy (JS.or given fallback) = true.
Proof. unfold JS.or. destruct (JS.truthy given) eqn:E; auto. Qed.

(** X10: [validatePipelineTrigger] returns normally on every input, and it
    triggers exactly when the input parses to a value other than [null];
    in every other case, the text [null] included, the result is the
    all-null result. *)
Theorem pipeline_triggers_exactly_when
    (JSON_parse : string -> Completion JSON) (triggerData : string) :
  exists result,
    validatePipelineTrigger JSON_parse triggerData = Return result
    /\ (RawTriggerResult.shouldTrigger result = true
        <-> exists data, JSON_parse triggerData = Return data /\ data <> JNull)
    /\ (RawTriggerResult.shouldTrigger result = false
        -> result = RawTriggerResult.allNull).
Proof.
  unfold validatePipelineTrigger.
  destruct (JSON_parse triggerData) as [data|e] eqn:Hparse.
  - destruct data; cbn; (eexists; split; [reflexivity|]); cbn.
    1: { split; [split; [discriminate | intros (d & [= <-] & Hd); congruence]
                | reflexivity]. }
    all: split; [split; [intros _; eexists; split; [reflexivity | discriminate]
                        | reflexivity]
                | discriminate].
  - cbn. eexists; split; [reflexivity|]. cbn. split.
    + split; [discriminate | intros (d & [=] & _)].
    + reflexivity.
Qed.

(** X11: a triggering pipeline result never has a falsy trigger type: a
    member that is absent, [null], [false], [0] or [''] is replaced by
    ['direct']; and [triggeredBy] is never [undefined], an absent or falsy
    member becomes [null]. *)
Theorem pipeline_result_defaults
    (JSON_parse : string -> Completion JSON) (triggerData : string)
    (result : RawTriggerResult.t) :
  validatePipelineTrigger JSON_parse triggerData = Return result ->
  RawTriggerResult.shouldTrigger result = true ->
  JS.truthy (RawTriggerResult.triggerType result) = true
  /\ RawTriggerResult.triggeredBy result <> undefined.
Proof.
  unfold validatePipelineTrigger.
  destruct (JSON_parse triggerData) as [data|e]; cbn; [|intros [= <-]; discriminate].
  destruct (JS.getMember data "triggerType") as [tt|]; cbn;
    [|intros [= <-]; discriminate].
  destruct (JS.getMember data "resourceType"); cbn; [|intros [= <-]; discriminate].
  destruct (JS.getMember data "resourceId"); cbn; [|intros [= <-]; discriminate].
  destruct (JS.getMember data "projectId"); cbn; [|intros [= <-]; discriminate].
  destruct (JS.getMember data "triggeredBy") as [tb|]; cbn;
    [|intros [= <-]; discriminate].
  intros [= <-] _. cbn. split.
  - now apply or_truthy.
  - unfold JS.or. destruct (JS.truthy tb) eqn:E; [|discriminate].
    intros ->. discriminate.
Qed.

Lemma pipeline_result_defaults_witness :
  exists result,
    validatePipelineTrigger JSONReader.parse
      ("{" ++ JSONReader.member "triggerType" "0" ++ "}") = Return result
    /\ RawTriggerResult.triggerType result = value (JString "direct")
    /\ JS.truthy (RawTriggerResult.triggerType result) = true
    /\ RawTriggerResult.triggeredBy result <> undefined.
Proof.
  eexists. split; [vm_compute; reflexivity|]. split; [reflexivity|].
  apply (pipeline_result_defaults JSONReader.parse
           ("{" ++ JSONReader.member "triggerType" "0" ++ "}")).
  - vm_compute; reflexivity.
  - reflexivity.
Defined.

End PipelineDecision.

(** ** The file fetch: order, isolation of failures, selection *)

Module FileFetchMore.
Import GitLabDataFetcher FileFetch.

(** What one diff contributes to the result. *)
Lemma fetch_loop_flat_map
    (getFile : Z -> string -> string -> Completion GitLabFile.t)
    (decodeBase64 : string -> string)
    (projectId : Z) (branch : string)
    (todo : list GitLabDiff.t) (files : list GitLabFile.t) :
  fold_left (fetchOne getFile decodeBase64 projectId branch) todo files
  = (files ++ flat_map (fun diff => fetchOne getFile decodeBase64 projectId branch [] diff) todo)%list.
Proof.
  revert files; induction todo as [|diff todo IH]; intros files; cbn [fold_left flat_map].
  - now rewrite app_nil_r.
  - rewrite IH. unfold fetchOne at 1 3.
    destruct (getFile projectId (GitLabDiff.new_path diff) branch);
      rewrite <- ?app_assoc; reflexivity.
Qed.

Section AnyClient.

Variable getFile : Z -> string -> string -> Completion GitLabFile.t.
Variable decodeBase64 : string -> string.

(** X12: the fetched files come in the order of the diffs, one per
    selected diff whose fetch succeeds; a failed fetch only leaves its own
    file out. *)
Theorem fetch_keeps_order_and_skips_failures
    (projectId : Z) (diffs : list GitLabDiff.t) (branch : string) :
  fetchModifiedFiles getFile decodeBase64 projectId diffs branch
  = flat_map
      (fun diff =>
         match getFile projectId (GitLabDiff.new_path diff) branch with
         | Return file => [decodeContent decodeBase64 file]
         | Throw _ => []
         end)
      (relevantDiffs diffs).
Proof.
  unfold fetchModifiedFiles. rewrite fetch_loop_flat_map. cbn [app].
  apply flat_map_ext. intros diff. unfold fetchOne.
  destruct (getFile projectId (GitLabDiff.new_path diff) branch); reflexivity.
Qed.

(** X14: when every fetch succeeds there is exactly one file per selected
    diff: as many as there are non-deleted relevant diffs, capped at 20;
    when every fetch fails the result is empty. *)
Theorem fetch_counts
    (projectId : Z) (diffs : list GitLabDiff.t) (branch : string) :
  ((forall diff, In diff (relevantDiffs diffs) ->
      exists file, getFile projectId (GitLabDiff.new_path diff) branch = Return file) ->
   List.length (fetchModifiedFiles getFile decodeBase64 projectId diffs branch)
   = Nat.min 20
       (List.length
          (filter (fun diff => negb (GitLabDiff.deleted_file diff)
                               && isRelevantFile (GitLabDiff.new_path diff)) diffs)))
  /\ ((forall diff, In diff (relevantDiffs diffs) ->
         exists e, getFile projectId (GitLabDiff.new_path diff) branch = Throw e) ->
      fetchModifiedFiles getFile decodeBase64 projectId diffs branch = []).
Proof.
  unfold fetchModifiedFiles. rewrite fetch_loop_flat_map. cbn [app].
  split; intros H.
  - transitivity (List.length (relevantDiffs diffs));
      [|unfold relevantDiffs, maxFiles; apply length_firstn].
    induction (relevantDiffs diffs) as [|diff todo IH]; [reflexivity|].
    cbn [flat_map]. rewrite length_app, IH by (intros d Hd; apply H; now right).
    destruct (H diff (or_introl eq_refl)) as [file Hfile].
    unfold fetchOne. rewrite Hfile. reflexivity.
  - induction (relevantDiffs diffs) as [|diff todo IH]; [reflexivity|].
    cbn [flat_map]. rewrite IH by (intros d Hd; apply H; now right).
    destruct (H diff (or_introl eq_refl)) as [e He].
    unfold fetchOne. rewrite He. reflexivity.
Qed.

End AnyClient.

(** X13: the result depends on the repository only through the paths of
    the selected diffs: what the client would answer for a deleted file,
    an excluded path or a diff beyond the cap never matters. *)
Theorem fetch_reads_only_selected_paths
    (getFile getFile' : Z -> string -> string -> Completion GitLabFile.t)
    (decodeBase64 : string -> string)
    (projectId : Z) (diffs : list GitLabDiff.t) (branch : string) :
  (forall diff, In diff (relevantDiffs diffs) ->
     getFile projectId (GitLabDiff.new_path diff) branch
     = getFile' projectId (GitLabDiff.new_path diff) branch) ->
  fetchModifiedFiles getFile decodeBase64 projectId diffs branch
  = fetchModifiedFiles getFile' decodeBase64 projectId diffs branch.
Proof.
  intros H. unfold fetchModifiedFiles. rewrite !fetch_loop_flat_map. cbn [app].
  induction (relevantDiffs diffs) as [|diff todo IH]; [reflexivity|].
  cbn [flat_map]. rewrite IH by (intros d Hd; apply H; now right).
  unfold fetchOne. now rewrite (H diff (or_introl eq_refl)).
Qed.

(** X15: the selection is complete up to the cap: when no more than 20
    diffs qualify, every diff that is not marked deleted and whose path
    matches no exclusion pattern is selected. *)
Theorem selection_is_complete_below_cap
    (diffs : list GitLabDiff.t) (diff : GitLabDiff.t) :
  List.length
    (filter (fun d => negb (GitLabDiff.deleted_file d)
                      && isRelevantFile (GitLabDiff.new_path d)) diffs) <= 20 ->
  In diff diffs ->
  GitLabDiff.deleted_file diff = false ->
  ~ Spec.excludedPath (GitLabDiff.new_path diff) ->
  In diff (relevantDiffs diffs).
Proof.
  intros Hcap Hin Hdel Hrel. unfold relevantDiffs, maxFiles.
  rewrite firstn_all2 by exact Hcap.
  apply filter_In. split; [exact Hin|].
  apply isRelevantFile_spec in Hrel. now rewrite Hdel, Hrel.
Qed.

Ltac each_selected H :=
  vm_compute in H;
  repeat (destruct H as [<- | H]; [try (eexists; vm_compute; reflexivity);
                                   try (vm_compute; reflexivity) |]);
  try contradiction.

Lemma fetch_counts_witness :
  List.length (fetchModifiedFiles Sample.getFile Sample.decodeBase64 42
                 [Sample.diffOf "src/app.ts" false; Sample.diffOf "old.ts" true;
                  Sample.diffOf "README.md" false] "main") = 2
  /\ fetchModifiedFiles Sample2.failingGetFile Sample.decodeBase64 42
       Sample.changes "main" = [].
Proof.
  split.
  - apply (proj1 (fetch_counts Sample.getFile Sample.decodeBase64 42
                    [Sample.diffOf "src/app.ts" false; Sample.diffOf "old.ts" true;
                     Sample.diffOf "README.md" false] "main")).
    intros diff H. each_selected H.
  - apply (proj2 (fetch_counts Sample2.failingGetFile Sample.decodeBase64 42
                    Sample.changes "main")).
    intros diff H. exists OtherError. reflexivity.
Defined.

Lemma fetch_reads_only_selected_paths_witness :
  fetchModifiedFiles Sample.getFile Sample.decodeBase64 42 Sample.changes "main"
  = fetchModifiedFiles Sample2.getFileNoLocks Sample.decodeBase64 42 Sample.changes "main".
Proof.
  apply fetch_reads_only_selected_paths.
  intros diff H. each_selected H.
Defined.

Lemma selection_is_complete_below_cap_witness :
  In (Sample.diffOf "README.md" false) (relevantDiffs Sample.changes).
Proof.
  apply selection_is_complete_below_cap.
  - vm_compute. repeat constructor.
  - vm_compute. tauto.
  - reflexivity.
  - apply isRelevantFile_spec. vm_compute; reflexivity.
Defined.

End FileFetchMore.

(** ** Splitting and joining *)

Module SplitJoin.
Import JSString JSStringFacts JSMore.

Lemma split_not_nil (sep : ascii) (s : string) : split sep s <> [].
Proof.
  induction s as [|c rest IH]; cbn [split]; [discriminate|].
  destruct (Ascii.eqb c sep); [discriminate|].
  destruct (split sep rest); [contradiction | discriminate].
Qed.

Lemma length_split (sep : ascii) (s : string) :
  List.length (split sep s) = 1 + count sep s.
Proof.
  induction s as [|c rest IH]; cbn [split count]; [reflexivity|].
  destruct (Ascii.eqb c sep).
  - cbn [List.length]. now rewrite IH.
  - destruct (split sep rest) eqn:E; [now destruct (split_not_nil sep rest)|].
    cbn [List.length] in *. exact IH.
Qed.

Lemma join_cons (sep x : string) (rest : list string) :
  rest <> [] -> join sep (x :: rest) = x ++ sep ++ join sep rest.
Proof. destruct rest; [contradiction | reflexivity]. Qed.

(** Joining the pieces of a split gives the text back. *)
Lemma join_split (sep : ascii) (s : string) :
  join (String sep "") (split sep s) = s.
Proof.
  induction s as [|c rest IH]; cbn [split]; [reflexivity|].
  destruct (Ascii.eqb_spec c sep) as [-> | Hne].
  - rewrite join_cons by apply split_not_nil. now rewrite IH.
  - destruct (split sep rest) as [|piece pieces] eqn:E;
      [now destruct (split_not_nil sep rest)|].
    destruct pieces as [|next others].
    + cbn [join] in *. now rewrite IH.
    + rewrite join_cons in * by discriminate. rewrite <- IH. reflexivity.
Qed.

Lemma split_no_separator (sep : ascii) (s : string) :
  count sep s = 0 -> split sep s = [s].
Proof.
  induction s as [|c rest IH]; cbn [split count]; [reflexivity|].
  destruct (Ascii.eqb c sep); [discriminate|].
  cbn [Nat.add]. intros H. now rewrite IH.
Qed.

Lemma split_append (sep : ascii) (x rest : string) :
  count sep x = 0 ->
  split sep (x ++ String sep rest) = x :: split sep rest.
Proof.
  induction x as [|c x IH]; cbn [append split count].
  - now rewrite Ascii.eqb_refl.
  - destruct (Ascii.eqb c sep); [discriminate|].
    cbn [Nat.add]. intros H. now rewrite IH.
Qed.

(** Splitting a join of separator-free pieces gives the pieces back. *)
Lemma split_join (sep : ascii) (xs : list string) :
  xs <> [] ->
  (forall x, In x xs -> count sep x = 0) ->
  split sep (join (String sep "") xs) = xs.
Proof.
  induction xs as [|x rest IH]; [contradiction|]. intros _ Hfree.
  destruct rest as [|y rest].
  - cbn [join]. apply split_no_separator, Hfree. now left.
  - rewrite join_cons by discriminate. cbn [append].
    rewrite split_append by (apply Hfree; now left).
    rewrite IH; [reflexivity | discriminate |].
    intros z Hz. apply Hfree. now right.
Qed.

End SplitJoin.

(** ** Tool lists, completed *)

Module ToolListsMore.
Import JSString JSMore CreatePrompt ToolHandOver SplitJoin.

Lemma buildAllowedToolsString_join (customAllowedTools : option (list string)) :
  buildAllowedToolsString customAllowedTools
  = join "," (BASE_ALLOWED_TOOLS ++ Spec.orNone customAllowedTools)%list.
Proof. destruct customAllowedTools as [[|c cs]|]; reflexivity. Qed.

Lemma buildDisallowedToolsString_join
    (customDisallowedTools allowedTools : option (list string)) :
  buildDisallowedToolsString customDisallowedTools allowedTools
  = join "," (Spec.resolvedDenyList customDisallowedTools allowedTools).
Proof.
  unfold buildDisallowedToolsString, Spec.resolvedDenyList, DISALLOWED_TOOLS.
  destruct allowedTools as [[|a l]|]; cbn [nonEmptyArray Spec.orNone filter];
    try (destruct customDisallowedTools as [[|c cs]|]; reflexivity).
  destruct (negb (arrayIncludes (a :: l) "WebSearch"));
    destruct (negb (arrayIncludes (a :: l) "WebFetch"));
    destruct customDisallowedTools as [[|c cs]|]; reflexivity.
Qed.



Lemma nonEmptyArray_orNone (tools : option (list string)) :
  Spec.orNone (nonEmptyArray tools) = Spec.orNone tools.
Proof. destruct tools as [[|t ts]|]; reflexivity. Qed.

Lemma builders_see_nonEmptyArray (custom allowed : option (list string)) :
  buildAllowedToolsString (nonEmptyArray allowed) = buildAllowedToolsString allowed
  /\ buildDisallowedToolsString (nonEmptyArray custom) (nonEmptyArray allowed)
     = buildDisallowedToolsString custom allowed.
Proof.
  rewrite !buildAllowedToolsString_join, !buildDisallowedToolsString_join.
  unfold Spec.resolvedDenyList. now rewrite !nonEmptyArray_orNone.
Qed.

Lemma hand_over_round_trip (tools : option (list string)) :
  commaFree tools -> toolsFromEnv (toolsVariable tools) = nonEmptyArray tools.
Proof.
  intros Hfree. unfold toolsFromEnv, toolsVariable.
  destruct tools as [[|t ts]|]; cbn [nonEmptyArray]; try reflexivity.
  f_equal. apply (split_join ","); [discriminate | exact Hfree].
Qed.

(** X17: the tool lists survive the hand-over from the webhook receiver to
    the pipeline.  When no tool name holds a comma, joining a list into
    its pipeline variable and splitting the variable again gives the list
    back (an empty list is not forwarded and comes back absent), and the
    pipeline builds the same allowed and deny strings as the receiver's
    configuration would. *)
Theorem tool_lists_survive_hand_over
    (allowedTools disallowedTools : option (list string)) :
  commaFree allowedTools ->
  commaFree disallowedTools ->
  toolsFromEnv (toolsVariable allowedTools) = nonEmptyArray allowedTools
  /\ buildAllowedToolsString (toolsFromEnv (toolsVariable allowedTools))
     = buildAllowedToolsString allowedTools
  /\ buildDisallowedToolsString (toolsFromEnv (toolsVariable disallowedTools))
                                (toolsFromEnv (toolsVariable allowedTools))
     = buildDisallowedToolsString disallowedTools allowedTools.
Proof.
  intros Ha Hd. rewrite !hand_over_round_trip by assumption.
  split; [reflexivity | apply builders_see_nonEmptyArray].
Qed.

Lemma tool_lists_survive_hand_over_witness :
  toolsVariable (Some ["Bash"; "WebFetch"]) = Some "Bash,WebFetch"
  /\ toolsFromEnv (Some "Bash,WebFetch") = Some ["Bash"; "WebFetch"]
  /\ buildDisallowedToolsString (toolsFromEnv (toolsVariable (Some [])))
                                (toolsFromEnv (toolsVariable (Some ["Bash"; "WebFetch"])))
     = buildDisallowedToolsString (Some []) (Some ["Bash"; "WebFetch"]).
Proof.
  split; [reflexivity | split; [reflexivity|]].
  apply (tool_lists_survive_hand_over (Some ["Bash"; "WebFetch"]) (Some [])).
  - intros tool H. cbn in H. destruct H as [<- | [<- | []]]; reflexivity.
  - intros tool H. destruct H.
Defined.

(** X18: whatever text the [ALLOWED_TOOLS] variable holds, the allowed
    string is the joined base allow-list, a comma, and that text as it
    is, also when the variable is set but empty (the string then ends in
    a comma); when the variable is unset it is the joined base allow-list
    alone. *)
Theorem allowed_string_appends_variable_verbatim :
  (forall text,
     buildAllowedToolsString (toolsFromEnv (Some text))
     = join "," BASE_ALLOWED_TOOLS ++ "," ++ text)
  /\ buildAllowedToolsString (toolsFromEnv None) = join "," BASE_ALLOWED_TOOLS.
Proof.
  split; [|reflexivity]. intros text.
  unfold buildAllowedToolsString, toolsFromEnv.
  destruct (split "," text) as [|piece pieces] eqn:E;
    [now destruct (split_not_nil "," text)|].
  cbn [nonEmptyArray]. rewrite <- E, (join_split "," text). reflexivity.
Qed.

End ToolListsMore.

(** ** Context fetching *)

Module ContextFetch.
Import JSMore GitLabDataFetcher GitLabDataFetcherMore FileFetch.

Lemma truthyNumber_Some (o : option Z) (n : Z) :
  truthyNumber o = Some n <-> o = Some n /\ n <> 0%Z.
Proof.
  unfold truthyNumber. destruct o as [m|]; [|split; [discriminate | intros [[=] _]]].
  destruct (Z.eqb_spec m 0).
  - split; [discriminate | intros [[= <-] H]; contradiction].
  - split; [intros [= <-]; auto | intros [[= <-] _]; reflexivity].
Qed.

Lemma truthyNumber_None (o : option Z) :
  truthyNumber o = None <-> ~ exists n, o = Some n /\ n <> 0%Z.
Proof.
  split.
  - intros H (n & Hn). apply truthyNumber_Some in Hn. congruence.
  - intros H. destruct (truthyNumber o) as [n|] eqn:E; [|reflexivity].
    apply truthyNumber_Some in E. exfalso. eauto.
Qed.

Lemma fetchModifiedFiles_length
    (getFile : Z -> string -> string -> Completion GitLabFile.t)
    (decodeBase64 : string -> string)
    (projectId : Z) (diffs : list GitLabDiff.t) (branch : string) :
  List.length (fetchModifiedFiles getFile decodeBase64 projectId diffs branch) <= 20.
Proof.
  unfold fetchModifiedFiles.
  etransitivity; [apply fetch_loop_length|]. apply relevantDiffs_length.
Qed.

Section AnyClient.

Variable client : GitLabAPIClient.t.
Variable decodeBase64 : string -> string.

(** Case analysis along the calls of [fetchFullContext]. *)
Ltac fetch_cases :=
  unfold fetchFullContext;
  repeat match goal with
         | |- context [bind ?c _] => destruct c eqn:?; cbn [bind]
         | |- context [match TriggerResult.resourceType ?r with _ => _ end] =>
             destruct (TriggerResult.resourceType r) as [[|]|] eqn:?
         | |- context [match truthyNumber ?o with _ => _ end] =>
             destruct (truthyNumber o) eqn:?
         end.

Lemma context_holds_named_resource
    (projectId : Z) (triggerResult : TriggerResult.t) (context : GitLabContext.t) :
  fetchFullContext client decodeBase64 projectId triggerResult = Return context ->
  GitLabContext.triggerResult context = triggerResult
  /\ (isSome (GitLabContext.issue context) = true
      <-> Behaviour.namesResource triggerResult issue)
  /\ (isSome (GitLabContext.mergeRequest context) = true
      <-> Behaviour.namesResource triggerResult merge_request).
Proof.
  unfold Behaviour.namesResource.
  fetch_cases; intros [= <-]; cbn;
    repeat match goal with
           | H : truthyNumber _ = Some _ |- _ => apply truthyNumber_Some in H
           | H : truthyNumber _ = None |- _ => apply truthyNumber_None in H
           end;
    (split; [reflexivity|]);
    split; (split; [intros; try discriminate; eauto | intros [E X]; try congruence;
                                                       try (exfalso; eauto)]).
Qed.

(** X19: the shape of a fetched context.  It carries the trigger result
    unchanged, holds an issue exactly when the result names an issue, a
    merge request exactly when it names a merge request, never both;
    without a merge request there are no files, commits or diffs; and
    there are never more than 20 files. *)
Theorem fetched_context_shape
    (projectId : Z) (triggerResult : TriggerResult.t) (context : GitLabContext.t) :
  fetchFullContext client decodeBase64 projectId triggerResult = Return context ->
  GitLabContext.triggerResult context = triggerResult
  /\ (isSome (GitLabContext.issue context) = true
      <-> Behaviour.namesResource triggerResult issue)
  /\ (isSome (GitLabContext.mergeRequest context) = true
      <-> Behaviour.namesResource triggerResult merge_request)
  /\ ~ (isSome (GitLabContext.issue context) = true
        /\ isSome (GitLabContext.mergeRequest context) = true)
  /\ (GitLabContext.mergeRequest context = None ->
      GitLabContext.files context = [] /\ GitLabContext.commits context = []
      /\ GitLabContext.diffs context = [])
  /\ List.length (GitLabContext.files context) <= 20.
Proof.
  unfold Behaviour.namesResource.
  fetch_cases; intros [= <-]; cbn;
    repeat match goal with
           | H : truthyNumber _ = Some _ |- _ => apply truthyNumber_Some in H
           | H : truthyNumber _ = None |- _ => apply truthyNumber_None in H
           end;
    (split; [reflexivity|]);
    (split; [split; [intros; try discriminate; eauto | intros [E X]; try congruence;
                                                        try (exfalso; eauto)]|]);
    (split; [split; [intros; try discriminate; eauto | intros [E X]; try congruence;
                                                        try (exfalso; eauto)]|]);
    (split; [intros [? ?]; discriminate|]);
    (split; [intros; try discriminate; auto|]);
    try apply fetchModifiedFiles_length; cbn; lia.
Qed.

(** X20: fetching the context of a merge request succeeds exactly when the
    five calls for the project, the merge request, its notes, its commits
    and its changes succeed; whether the file contents can be read never
    matters. *)
Theorem merge_request_context_needs_five_calls
    (projectId iid : Z) (triggerResult : TriggerResult.t) :
  TriggerResult.resourceType triggerResult = Some merge_request ->
  TriggerResult.resourceId triggerResult = Some iid ->
  iid <> 0%Z ->
  (exists context,
     fetchFullContext client decodeBase64 projectId triggerResult = Return context)
  <-> (exists project, GitLabAPIClient.getProject client projectId = Return project)
      /\ (exists mr, GitLabAPIClient.getMergeRequest client projectId iid = Return mr)
      /\ (exists notes,
            GitLabAPIClient.getMergeRequestNotes client projectId iid = Return notes)
      /\ (exists commits,
            GitLabAPIClient.getMergeRequestCommits client projectId iid = Return commits)
      /\ (exists diffs,
            GitLabAPIClient.getMergeRequestChanges client projectId iid = Return diffs).
Proof.
  intros Hkind Hid Hnz.
  assert (Ht : truthyNumber (TriggerResult.resourceId triggerResult) = Some iid)
    by now apply truthyNumber_Some.
  unfold fetchFullContext. rewrite Hkind, Ht.
  destruct (GitLabAPIClient.getProject client projectId); cbn [bind];
    [|split; [intros [? [=]] | intros [[? [=]] _]]].
  destruct (GitLabAPIClient.getMergeRequest client projectId iid); cbn [bind];
    [|split; [intros [? [=]] | intros (_ & [? [=]] & _)]].
  destruct (GitLabAPIClient.getMergeRequestNotes client projectId iid); cbn [bind];
    [|split; [intros [? [=]] | intros (_ & _ & [? [=]] & _)]].
  destruct (GitLabAPIClient.getMergeRequestCommits client projectId iid); cbn [bind];
    [|split; [intros [? [=]] | intros (_ & _ & _ & [? [=]] & _)]].
  destruct (GitLabAPIClient.getMergeRequestChanges client projectId iid); cbn [bind];
    [|split; [intros [? [=]] | intros (_ & _ & _ & _ & [? [=]])]].
  split; [intros _; repeat split; eauto | intros _; eauto].
Qed.

(** X21: the project file listing returns only entries whose path is at
    most [maxDepth] segments deep (fewer than [maxDepth] slashes; 3 when
    no depth is given) and matches no exclusion pattern; with a depth of
    0 or less it returns nothing. *)
Theorem project_files_are_shallow_and_relevant
    (projectId : Z) (ref : option string) (maxDepth : option Z)
    (entries : list ProjectFile.t) :
  fetchProjectFiles client projectId ref maxDepth = Return entries ->
  (forall entry, In entry entries ->
     (Z.of_nat (count "/" (ProjectFile.path entry))
      < match maxDepth with Some d => d | None => 3 end)%Z
     /\ ~ Spec.excludedPath (ProjectFile.path entry))
  /\ ((match maxDepth with Some d => d | None => 3 end <= 0)%Z -> entries = []).
Proof.
  unfold fetchProjectFiles.
  destruct (GitLabAPIClient.getRepositoryTree client projectId "" _ true) as [tree|];
    cbn [bind]; [|discriminate].
  intros [= <-]. set (limit := match maxDepth with Some d => d | None => 3%Z end).
  split.
  - intros entry H. apply in_map_iff in H as (item & <- & H).
    apply filter_In in H as [_ H]. apply andb_true_iff in H as [Hd Hr].
    apply Z.leb_le in Hd. unfold depth in Hd. rewrite SplitJoin.length_split in Hd.
    apply isRelevantFile_spec in Hr. cbn. split; [lia | exact Hr].
  - intros Hlimit. induction tree as [|item tree IH]; [reflexivity|].
    cbn [filter]. unfold depth at 1. rewrite SplitJoin.length_split.
    destruct (Z.leb_spec (Z.of_nat (1 + count "/" (TreeItem.path item))) limit);
      [lia|]. cbn [andb]. exact IH.
Qed.

End AnyClient.

Lemma fetched_context_shape_witness :
  match fetchFullContext Sample2.client Sample.decodeBase64 42
          (GitLabTriggerValidator.validateTrigger Sample.config
             Sample.mergeRequestLabelAndPhrase) with
  | Return context =>
      isSome (GitLabContext.mergeRequest context) = true
      /\ ~ (isSome (GitLabContext.issue context) = true
            /\ isSome (GitLabContext.mergeRequest context) = true)
      /\ List.length (GitLabContext.files context) <= 20
  | Throw _ => False
  end.
Proof.
  destruct (fetchFullContext Sample2.client Sample.decodeBase64 42
              (GitLabTriggerValidator.validateTrigger Sample.config
                 Sample.mergeRequestLabelAndPhrase)) as [context|e] eqn:E;
    [|vm_compute in E; discriminate E].
  destruct (fetched_context_shape Sample2.client Sample.decodeBase64 42 _ context E)
    as (_ & _ & Hmr & Hnot & _ & Hlen).
  split; [|split; assumption].
  apply Hmr. split; [reflexivity|]. exists 5%Z. split; [reflexivity | discriminate].
Defined.

Lemma merge_request_context_needs_five_calls_witness :
  exists context,
    fetchFullContext Sample2.clientWithoutFiles Sample.decodeBase64 42
      (GitLabTriggerValidator.validateTrigger Sample.config
         Sample.mergeRequestLabelAndPhrase) = Return context.
Proof.
  apply (merge_request_context_needs_five_calls Sample2.clientWithoutFiles
           Sample.decodeBase64 42 5);
    [reflexivity | reflexivity | discriminate |].
  repeat split; eexists; reflexivity.
Defined.

Lemma project_files_are_shallow_and_relevant_witness :
  fetchProjectFiles Sample2.client 42 None None
  = Return [ProjectFile.mk "src" EntryType.directory;
            ProjectFile.mk "src/app.ts" EntryType.file;
            ProjectFile.mk "README.md" EntryType.file]
  /\ (Z.of_nat (count "/" "src/app.ts") < 3)%Z
  /\ ~ Spec.excludedPath "src/app.ts".
Proof.
  assert (E : fetchProjectFiles Sample2.client 42 None None
              = Return [ProjectFile.mk "src" EntryType.directory;
                        ProjectFile.mk "src/app.ts" EntryType.file;
                        ProjectFile.mk "README.md" EntryType.file])
    by (vm_compute; reflexivity).
  split; [exact E|].
  apply (proj1 (project_files_are_shallow_and_relevant Sample2.client 42 None None _ E)
           (ProjectFile.mk "src/app.ts" EntryType.file)).
  cbn. tauto.
Defined.

End ContextFetch.

(** ** The formatter *)

Module Formatter.
Import JSString JSMore GitLabDataFormatter.

Lemma length_append (a b : string) :
  String.length (a ++ b) = String.length a + String.length b.
Proof. induction a as [|c a IH]; cbn; [reflexivity | now rewrite IH]. Qed.

Lemma length_substring (n : nat) (s : string) :
  String.length (String.substring 0 n s) <= n.
Proof.
  revert s; induction n as [|n IH]; intros [|c s]; cbn; try lia.
  specialize (IH s). lia.
Qed.

Lemma length_join (sep : string) (xs : list string) :
  String.length (join sep xs)
  <= list_sum (List.map (fun x => String.length x + String.length sep) xs).
Proof.
  induction xs as [|x rest IH]; [cbn; lia|].
  destruct rest as [|y rest].
  - cbn [join List.map list_sum fold_right]. lia.
  - rewrite SplitJoin.join_cons by discriminate.
    cbn [List.map list_sum fold_right] in *. rewrite !length_append. lia.
Qed.

Lemma filter_all_false {A : Type} (f : A -> bool) (xs : list A) :
  (forall x, In x xs -> f x = false) -> filter f xs = [].
Proof.
  induction xs as [|x xs IH]; intros H; [reflexivity|].
  cbn [filter]. rewrite (H x (or_introl eq_refl)). apply IH.
  intros y Hy. apply H. now right.
Qed.

(** X22: system notes never reach the rendered discussion: a system note
    added anywhere in the list leaves the text unchanged, and a list of
    system notes only is rendered as [No comments yet.]. *)
Theorem system_notes_are_not_rendered (toLocaleString : string -> string) :
  (forall before note after,
     GitLabNote.system note = true ->
     formatNotes toLocaleString (before ++ note :: after)%list
     = formatNotes toLocaleString (before ++ after)%list)
  /\ (forall notes,
        (forall note, In note notes -> GitLabNote.system note = true) ->
        formatNotes toLocaleString notes = "## Comments" ++ nl ++ "No comments yet.").
Proof.
  split.
  - intros before note after H. unfold formatNotes.
    rewrite !filter_app. cbn [filter]. rewrite H. reflexivity.
  - intros notes H. unfold formatNotes.
    rewrite filter_all_false; [reflexivity|].
    intros note Hn. now rewrite (H note Hn).
Qed.

Lemma system_notes_are_not_rendered_witness :
  formatNotes Sample2.toLocaleString
    [Sample2.note 1 "changed the description" true;
     Sample2.note 2 "@claude please look" false]
  = formatNotes Sample2.toLocaleString [Sample2.note 2 "@claude please look" false]
  /\ formatNotes Sample2.toLocaleString [Sample2.note 1 "changed the description" true]
     = "## Comments" ++ nl ++ "No comments yet.".
Proof.
  split.
  - apply (proj1 (system_notes_are_not_rendered Sample2.toLocaleString) []).
    reflexivity.
  - apply (proj2 (system_notes_are_not_rendered Sample2.toLocaleString)).
    intros note [<- | []]. reflexivity.
Defined.

(** X23: the rendered file section is bounded whatever the size of the
    contents: at most 37 characters of heading, the paths, and 10046
    characters per file (the first 10000 characters of its content, the
    truncation mark and the fences). *)
Theorem rendered_files_are_bounded (files : list GitLabFile.t) :
  (Z.of_nat (String.length (formatFiles files))
   <= 37
      + Z.of_nat (list_sum (List.map
                              (fun file => String.length (GitLabFile.file_path file))
                              files))
      + 10046 * Z.of_nat (List.length files))%Z.
Proof.
  unfold formatFiles.
  destruct (Nat.eqb (List.length files) 0); [cbn [String.length append nl]; lia|].
  match goal with
  | |- context [List.map ?f files] => set (entry := f)
  end.
  assert (Hentry : forall file,
             String.length (entry file)
             <= String.length (GitLabFile.file_path file) + contentLimit + 44).
  { intros file. unfold entry.
    set (content := match truthyString (GitLabFile.content file) with
                    | Some text => text
                    | None => "Content not available"
                    end).
    rewrite !length_append.
    assert (Htrunc :
      String.length
        (if (contentLimit <? String.length content)%nat
         then String.substring 0 contentLimit content
              ++ nl ++ nl ++ "... (content truncated)"
         else content) <= contentLimit + 25).
    { destruct (Nat.ltb_spec contentLimit (String.length content)).
      - rewrite !length_append.
        pose proof (length_substring contentLimit content).
        cbn [String.length nl]. lia.
      - lia. }
    cbn [String.length nl] in *. lia. }
  assert (Hjoin :
    String.length (join (nl ++ nl) (List.map entry files))
    <= list_sum (List.map (fun file => String.length (GitLabFile.file_path file)) files)
       + (contentLimit + 46) * List.length files).
  { induction files as [|file rest IH]; [cbn; lia|].
    specialize (Hentry file).
    destruct rest as [|next rest].
    - cbn [List.map join list_sum fold_right List.length]. lia.
    - cbn [List.map] in *. rewrite SplitJoin.join_cons by discriminate.
      rewrite !length_append.
      cbn [list_sum fold_right List.length String.length nl append] in *. lia. }
  rewrite !length_append. cbn [String.length nl] in *.
  unfold contentLimit in Hjoin. lia.
Qed.

Lemma truthy_eqb_empty (s : string) : truthy s = negb (String.eqb s "").
Proof. reflexivity. Qed.

(** X24: the status shown for a diff follows the precedence renamed,
    deleted, added, modified (the later assignment wins); the path shown
    is [new_path], or [old_path] when [new_path] is empty; and the origin
    is added exactly for a renamed diff whose two paths differ.  A
    non-empty list is rendered as its count and one such line per diff,
    in order. *)
Theorem diffs_are_listed_by_precedence (diffs : list GitLabDiff.t) :
  diffs <> [] ->
  formatDiffs diffs
  = "## File Changes (" ++ numberToString (List.length diffs) ++ " files)" ++ nl
    ++ join nl (List.map Behaviour.diffLine diffs).
Proof.
  intros Hne. unfold formatDiffs.
  destruct diffs as [|diff rest]; [contradiction|]. cbn [List.length Nat.eqb].
  do 5 f_equal. apply map_ext. intros d.
  unfold Behaviour.diffLine, Behaviour.diffStatus. rewrite truthy_eqb_empty.
  destruct (GitLabDiff.renamed_file d), (GitLabDiff.deleted_file d),
    (GitLabDiff.new_file d), (String.eqb (GitLabDiff.new_path d) ""),
    (String.eqb (GitLabDiff.old_path d) (GitLabDiff.new_path d)); reflexivity.
Qed.

Lemma diffs_are_listed_by_precedence_witness :
  formatDiffs [GitLabDiff.mk "old.ts" "new.ts" true true true "@@";
               GitLabDiff.mk "gone.ts" "gone.ts" true false true "@@"]
  = "## File Changes (2 files)" ++ nl
    ++ "- **renamed**: new.ts (from old.ts)" ++ nl
    ++ "- **deleted**: gone.ts".
Proof.
  rewrite diffs_are_listed_by_precedence by discriminate.
  vm_compute. reflexivity.
Defined.

End Formatter.

(** ** From the trigger to the label of the prompt *)

Module Labels.
Import JSMore GitLabTriggerValidator GitLabDataFetcherMore CreatePromptMore
       ClassifierInvariants ContextFetch.

Lemma target_fields (result : TriggerResult.t) (kind : ResourceType) (iid : Z) :
  Behaviour.target result = Some (kind, iid) ->
  TriggerResult.resourceType result = Some kind
  /\ TriggerResult.resourceId result = Some iid.
Proof.
  unfold Behaviour.target.
  destruct (TriggerResult.resourceType result), (TriggerResult.resourceId result);
    intros [=]; subst; auto.
Qed.

Lemma target_none (result : TriggerResult.t) :
  isSome (TriggerResult.resourceType result) = isSome (TriggerResult.resourceId result) ->
  Behaviour.target result = None ->
  TriggerResult.resourceType result = None.
Proof.
  unfold Behaviour.target.
  destruct (TriggerResult.resourceType result), (TriggerResult.resourceId result);
    cbn; intros; congruence.
Qed.

Section AnyClient.

Variable client : GitLabAPIClient.t.
Variable decodeBase64 : string -> string.
Variable config : GitLabActionConfig.t.

(** X25: from the webhook to the prompt label.  When an event triggers on
    a resource with a non-zero [iid] and its context can be fetched, the
    prompt is labelled with the kind of that resource and the trigger
    type: [ISSUE_] or [MR_] followed by [COMMENT], [ASSIGNED] or
    [LABELED]; never [DIRECT_TRIGGER] or [UNKNOWN]. *)
Theorem webhook_trigger_is_labelled_by_resource
    (event : GitLabWebhookEvent.t) (projectId : Z)
    (kind : ResourceType) (iid : Z) (context : GitLabContext.t) :
  TriggerResult.shouldTrigger (validateTrigger config event) = true ->
  Behaviour.targetResource event = Some (kind, iid) ->
  iid <> 0%Z ->
  fetchFullContext client decodeBase64 projectId (validateTrigger config event)
  = Return context ->
  exists type,
    TriggerResult.triggerType (validateTrigger config event) = Some type
    /\ type <> direct
    /\ EventLabel.eventType (getEventTypeAndContext context config)
       = expectedLabel kind type.
Proof.
  intros Hfire Htarget Hnz Hfetch.
  destruct (type_of_trigger config event Hfire) as (type & Htype & Hdirect).
  rewrite <- (target_of_trigger config event Hfire) in Htarget.
  apply target_fields in Htarget as [Hkind Hid].
  destruct (context_holds_named_resource client decodeBase64 _ _ _ Hfetch)
    as (Hresult & _ & Hmr).
  exists type. split; [exact Htype | split; [exact Hdirect|]].
  unfold getEventTypeAndContext. rewrite Hresult, Htype.
  destruct kind.
  - assert (Hno : isSome (GitLabContext.mergeRequest context) = false).
    { apply not_true_is_false. intros H. apply Hmr in H as [H _]. congruence. }
    rewrite Hno. destruct type; reflexivity.
  - assert (Hyes : isSome (GitLabContext.mergeRequest context) = true).
    { apply Hmr. split; [exact Hkind | eauto]. }
    rewrite Hyes. destruct type; reflexivity.
Qed.

(** X26: a note that triggers without a resource (its parent is neither an
    attached issue nor an attached merge request) gives a context with
    neither an issue nor a merge request, no notes and no files, and the
    prompt is labelled [ISSUE_COMMENT] all the same. *)
Theorem note_without_resource_is_labelled_issue_comment
    (event : GitLabWebhookEvent.t) (projectId : Z) (context : GitLabContext.t) :
  TriggerResult.shouldTrigger (validateTrigger config event) = true ->
  Behaviour.targetResource event = None ->
  fetchFullContext client decodeBase64 projectId (validateTrigger config event)
  = Return context ->
  GitLabContext.issue context = None
  /\ GitLabContext.mergeRequest context = None
  /\ GitLabContext.notes context = []
  /\ GitLabContext.files context = []
  /\ EventLabel.eventType (getEventTypeAndContext context config) = "ISSUE_COMMENT".
Proof.
  intros Hfire Htarget Hfetch.
  assert (Hcomment :
    TriggerResult.triggerType (validateTrigger config event) = Some comment
    /\ TriggerResult.resourceType (validateTrigger config event) = None).
  { revert Hfire Htarget. unfold Behaviour.targetResource.
    validator_cases; cbn; intros; try discriminate; auto. }
  destruct Hcomment as [Htype Hkind]. revert Hfetch.
  unfold fetchFullContext. rewrite Hkind.
  destruct (GitLabAPIClient.getProject client projectId); cbn [bind]; [|discriminate].
  intros [= <-]. unfold getEventTypeAndContext. cbn. rewrite Htype. auto.
Qed.

(** X27: a direct trigger is labelled [DIRECT_TRIGGER] whatever its
    resource, and its context holds the named resource and nothing else:
    the issue for an issue, the merge request for a merge request, and
    neither when the resource identifier is [0]. *)
Theorem direct_trigger_context_and_label
    (projectId : Z) (kind : ResourceType) (resourceId : Z) (prompt : string)
    (userId : option Z) (context : GitLabContext.t) :
  fetchFullContext client decodeBase64 projectId
    (validateDirectTrigger projectId kind resourceId prompt userId) = Return context ->
  EventLabel.eventType (getEventTypeAndContext context config) = "DIRECT_TRIGGER"
  /\ (isSome (GitLabContext.issue context) = true
      <-> kind = issue /\ resourceId <> 0%Z)
  /\ (isSome (GitLabContext.mergeRequest context) = true
      <-> kind = merge_request /\ resourceId <> 0%Z).
Proof.
  intros Hfetch.
  destruct (context_holds_named_resource client decodeBase64 _ _ _ Hfetch)
    as (Hresult & Hissue & Hmr).
  split; [unfold getEventTypeAndContext; rewrite Hresult; reflexivity|].
  rewrite Hissue, Hmr. unfold Behaviour.namesResource. cbn.
  split; split.
  - intros [[= <-] (n & [= <-] & Hn)]. auto.
  - intros [-> Hn]. eauto.
  - intros [[= <-] (n & [= <-] & Hn)]. auto.
  - intros [-> Hn]. eauto.
Qed.

End AnyClient.

Lemma webhook_trigger_is_labelled_by_resource_witness :
  match fetchFullContext Sample2.client Sample.decodeBase64 42
          (validateTrigger Sample.config Sample.mergeRequestLabelAndPhrase) with
  | Return context =>
      EventLabel.eventType (getEventTypeAndContext context Sample.config) = "MR_LABELED"
  | Throw _ => False
  end.
Proof.
  destruct (fetchFullContext Sample2.client Sample.decodeBase64 42
              (validateTrigger Sample.config Sample.mergeRequestLabelAndPhrase))
    as [context|e] eqn:E; [|vm_compute in E; discriminate E].
  destruct (webhook_trigger_is_labelled_by_resource Sample2.client Sample.decodeBase64
              Sample.config Sample.mergeRequestLabelAndPhrase 42 merge_request 5 context)
    as (type & Htype & _ & Hlabel);
    [vm_compute; reflexivity | reflexivity | discriminate | exact E |].
  vm_compute in Htype. injection Htype as <-. exact Hlabel.
Defined.

Lemma note_without_resource_is_labelled_issue_comment_witness :
  match fetchFullContext Sample2.client Sample.decodeBase64 42
          (validateTrigger Sample.config Sample.noteOnCommit) with
  | Return context =>
      GitLabContext.issue context = None
      /\ GitLabContext.mergeRequest context = None
      /\ GitLabContext.notes context = []
      /\ GitLabContext.files context = []
      /\ EventLabel.eventType (getEventTypeAndContext context Sample.config)
         = "ISSUE_COMMENT"
  | Throw _ => False
  end.
Proof.
  destruct (fetchFullContext Sample2.client Sample.decodeBase64 42
              (validateTrigger Sample.config Sample.noteOnCommit))
    as [context|e] eqn:E; [|vm_compute in E; discriminate E].
  apply (note_without_resource_is_labelled_issue_comment Sample2.client
           Sample.decodeBase64 Sample.config Sample.noteOnCommit 42 context);
    [vm_compute; reflexivity | reflexivity | exact E].
Defined.

Lemma direct_trigger_context_and_label_witness :
  match fetchFullContext Sample2.client Sample.decodeBase64 42
          (validateDirectTrigger 42 issue 12 "Manual trigger" None) with
  | Return context =>
      EventLabel.eventType (getEventTypeAndContext context Sample.config)
      = "DIRECT_TRIGGER"
      /\ isSome (GitLabContext.issue context) = true
  | Throw _ => False
  end.
Proof.
  destruct (fetchFullContext Sample2.client Sample.decodeBase64 42
              (validateDirectTrigger 42 issue 12 "Manual trigger" None))
    as [context|e] eqn:E; [|vm_compute in E; discriminate E].
  destruct (direct_trigger_context_and_label Sample2.client Sample.decodeBase64
              Sample.config 42 issue 12 "Manual trigger" None context E)
    as (Hlabel & Hissue & _).
  split; [exact Hlabel|]. apply Hissue. split; [reflexivity | discriminate].
Defined.

End Labels.

(** ** The signature check *)

Module SignatureCheck.
Import WebhookServer.

Lemma truthyString_cases (o : option string) :
  (truthyString o = None /\ (o = None \/ o = Some ""))
  \/ (exists s, truthyString o = Some s /\ o = Some s /\ s <> "").
Proof.
  destruct o as [s|]; [|left; auto].
  unfold truthyString, JSString.truthy.
  destruct (String.eqb_spec s ""); cbn.
  - left. subst. auto.
  - right. eauto.
Qed.

(** X28: with a non-empty secret configured a request is handed on
    exactly when its token header equals the secret, and is answered 401
    otherwise; with the secret unset or empty every request is handed on,
    whatever its header. *)
Theorem signature_check_decides (webhookSecret signature : option string) :
  (forall secret,
     webhookSecret = Some secret -> secret <> "" ->
     (verifyWebhookSignature webhookSecret signature = next
      <-> signature = Some secret)
     /\ (signature <> Some secret ->
         exists error, verifyWebhookSignature webhookSecret signature
                       = respond 401 error))
  /\ (webhookSecret = None \/ webhookSecret = Some "" ->
      verifyWebhookSignature webhookSecret signature = next).
Proof.
  unfold verifyWebhookSignature. split.
  - intros secret -> Hne.
    destruct (truthyString_cases (Some secret)) as [[_ [H | H]] | (s & -> & [= <-] & _)];
      [discriminate | congruence |].
    destruct (truthyString_cases signature) as [[-> H] | (s & -> & -> & Hs)].
    + split; [split; [discriminate | intros ->; destruct H; congruence] | eauto].
    + destruct (String.eqb_spec s secret) as [-> | Hdiff]; cbn.
      * split; [tauto | congruence].
      * split; [split; [discriminate | congruence] | eauto].
  - intros [-> | ->]; reflexivity.
Qed.

Lemma signature_check_decides_witness :
  verifyWebhookSignature (Some "s3cret") (Some "s3cret") = next
  /\ (exists error, verifyWebhookSignature (Some "s3cret") (Some "S3CRET")
                    = respond 401 error)
  /\ verifyWebhookSignature (Some "") None = next.
Proof.
  destruct (signature_check_decides (Some "s3cret") (Some "s3cret")) as [Hset _].
  destruct (signature_check_decides (Some "s3cret") (Some "S3CRET")) as [Hother _].
  destruct (signature_check_decides (Some "") None) as [_ Hunset].
  split; [apply (Hset "s3cret" eq_refl); [discriminate | reflexivity]|].
  split; [apply (Hother "s3cret" eq_refl); discriminate | apply Hunset; now right].
Defined.

End SignatureCheck.
